(** * The OAuth callback service: the handlers of [service.py] and
      [lambda_oauth.py], embedded as functions over explicit state.

    The two files are two deployments of one flow.  Each gets a module of its
    own ([Service], [Lambda]) that keeps the names of the source; the Python
    values, the HTTP answers of the provider and the document store they
    share come first.

    What the handlers cannot decide by themselves is an input of the model:
    - the interpreter's tables ([str.upper], [hash], [repr], [int] and [len]
      on a string, slices) are the fields of a [Runtime]: a string of the
      model is the text as a sequence of bytes, which is exact for
      comparison and concatenation, and whatever counts or classifies
      characters is left to the interpreter;
    - what the provider answers, what the clock shows and whether the store
      driver raises are the fields of an [Env], one per request.

    A rendered page is kept as the values substituted into the markup
    template, not as the markup.  Logging and printing are left out. *)

From Stdlib Require Import ZArith String Ascii List Bool Lia.
From Stdlib Require Import DecimalString SpecFloat.
Import ListNotations.

Local Open Scope string_scope.
Local Open Scope Z_scope.

(** ** Python values *)

Module Py.

(** The values [json.loads] builds.  A dict is kept as the list of its items,
    in insertion order; lookups take the first item with the key. *)
#[warnings="-register-all"]
Inductive pyval : Type :=
| PNone
| PBool (b : bool)
| PInt (n : Z)
| PFloat (f : spec_float)
| PStr (s : string)
| PList (l : list pyval)
| PDict (d : list (string * pyval)).

(** The exceptions the handlers can meet. *)
Inductive pyexc : Type :=
| KeyError (key : string)
| ValueError
| TypeError
| AttributeError
| IndexError
| OverflowError
| OtherError (text : string).

(** A computation that returns or raises. *)
Inductive result (A : Type) : Type :=
| Ret (a : A)
| Raise (e : pyexc).

Arguments Ret {A} a.
Arguments Raise {A} e.

Definition bind {A B : Type} (m : result A) (k : A -> result B) : result B :=
  match m with
  | Ret a => k a
  | Raise e => Raise e
  end.

(** The interpreter's own tables, which the repository does not contain. *)
Record Runtime : Type := {
  (** [str.upper] *)
  str_upper : string -> string;
  (** [hash] on a [str]; salted per process *)
  str_hash : string -> Z;
  (** [repr], which [str] falls back on for floats, lists and dicts *)
  py_repr : pyval -> string;
  (** [int] on a [str], base 10: the integer, [None] where it raises
      ValueError *)
  str_int : string -> option Z;
  (** [len] on a [str] *)
  str_len : string -> nat;
  (** the slice [s[:n]] *)
  str_prefix : nat -> string -> string;
  (** [urllib.parse.parse_qs] *)
  parse_qs : string -> list (string * list string)
}.

(** [d.get(key)] / [key in d] on the items of a dict. *)
Fixpoint lookup {A : Type} (key : string) (d : list (string * A)) : option A :=
  match d with
  | [] => None
  | (k, v) :: rest => if String.eqb k key then Some v else lookup key rest
  end.

(** [bool(v)] *)
Definition truthy (v : pyval) : bool :=
  match v with
  | PNone => false
  | PBool b => b
  | PInt n => negb (Z.eqb n 0)
  | PFloat (S754_zero _) => false
  | PFloat _ => true
  | PStr s => negb (String.eqb s "")
  | PList l => match l with [] => false | _ => true end
  | PDict d => match d with [] => false | _ => true end
  end.

(** Truth of an optional string: [None] and [''] are false. *)
Definition truthy_str (o : option string) : bool :=
  match o with
  | Some s => negb (String.eqb s "")
  | None => false
  end.

(** Decimal text of an integer, as [str] and an f-string give it. *)
Definition str_of_int (n : Z) : string :=
  DecimalString.NilZero.string_of_int (Z.to_int n).

(** [str(v)], which is also what an f-string and [str.format] with an empty
    format specification print. *)
Definition str (rt : Runtime) (v : pyval) : string :=
  match v with
  | PNone => "None"
  | PBool true => "True"
  | PBool false => "False"
  | PInt n => str_of_int n
  | PStr s => s
  | PFloat _ | PList _ | PDict _ => py_repr rt v
  end.

(** [v != s] for a string literal [s]: only an equal string is equal. *)
Definition ne_str (v : pyval) (s : string) : bool :=
  match v with
  | PStr t => negb (String.eqb t s)
  | _ => true
  end.

(** [v[key]] with a string key. *)
Definition getitem (v : pyval) (key : string) : result pyval :=
  match v with
  | PDict d =>
      match lookup key d with
      | Some x => Ret x
      | None => Raise (KeyError key)
      end
  | _ => Raise TypeError
  end.

(** [v.get(key, default)]; only a dict has the method. *)
Definition get (v : pyval) (key : string) (default : pyval) : result pyval :=
  match v with
  | PDict d =>
      match lookup key d with
      | Some x => Ret x
      | None => Ret default
      end
  | _ => Raise AttributeError
  end.

(** *** [int(v)] *)

(** [int(s)] for a string: what the interpreter's table gives, ValueError
    where it gives nothing. *)
Definition int_of_str (rt : Runtime) (s : string) : result Z :=
  match str_int rt s with
  | Some n => Ret n
  | None => Raise ValueError
  end.

(** [int(f)] for a float: truncation towards zero. *)
Definition int_of_float (f : spec_float) : result Z :=
  match f with
  | S754_zero _ => Ret 0
  | S754_infinity _ => Raise OverflowError
  | S754_nan => Raise ValueError
  | S754_finite s m e =>
      let magnitude :=
        if 0 <=? e then Z.pos m * 2 ^ e else Z.pos m / 2 ^ (- e) in
      Ret (if s then - magnitude else magnitude)
  end.

Definition int (rt : Runtime) (v : pyval) : result Z :=
  match v with
  | PInt n => Ret n
  | PBool b => Ret (if b then 1 else 0)
  | PStr s => int_of_str rt s
  | PFloat f => int_of_float f
  | PNone | PList _ | PDict _ => Raise TypeError
  end.

(** *** [format(n, '04X')] *)

Fixpoint upper_hex (u : Hexadecimal.uint) : string :=
  match u with
  | Hexadecimal.Nil => ""
  | Hexadecimal.D0 u => String "0" (upper_hex u)
  | Hexadecimal.D1 u => String "1" (upper_hex u)
  | Hexadecimal.D2 u => String "2" (upper_hex u)
  | Hexadecimal.D3 u => String "3" (upper_hex u)
  | Hexadecimal.D4 u => String "4" (upper_hex u)
  | Hexadecimal.D5 u => String "5" (upper_hex u)
  | Hexadecimal.D6 u => String "6" (upper_hex u)
  | Hexadecimal.D7 u => String "7" (upper_hex u)
  | Hexadecimal.D8 u => String "8" (upper_hex u)
  | Hexadecimal.D9 u => String "9" (upper_hex u)
  | Hexadecimal.Da u => String "A" (upper_hex u)
  | Hexadecimal.Db u => String "B" (upper_hex u)
  | Hexadecimal.Dc u => String "C" (upper_hex u)
  | Hexadecimal.Dd u => String "D" (upper_hex u)
  | Hexadecimal.De u => String "E" (upper_hex u)
  | Hexadecimal.Df u => String "F" (upper_hex u)
  end.

Fixpoint zeros (n : nat) : string :=
  match n with
  | O => ""
  | S n => String "0" (zeros n)
  end.

(** Sign first, then zeros up to a width of four, then the digits. *)
Definition format_04X (n : Z) : string :=
  let ds := upper_hex (N.to_hex_uint (Z.abs_N n)) in
  if n <? 0
  then String "-" (zeros (3 - String.length ds) ++ ds)
  else zeros (4 - String.length ds) ++ ds.

End Py.

Import Py.

(** ** What the provider answers *)

Module Http.

(** The exception classes the two clients tell apart: a timeout
    ([asyncio.TimeoutError], [requests.Timeout]), an error of the HTTP client
    ([aiohttp.ClientError], [requests.RequestException]) and anything else. *)
Inductive exn_class : Type := Timeout | ClientError | Unexpected.

(** An exception, with the text [str(e)] gives. *)
Record exn : Type := { class : exn_class; message : string }.

(** What [resp.json()] does: the decoded body, or the exception it raises. *)
Inductive json_result : Type :=
| JsonOk (v : pyval)
| JsonRaises (e : exn).

Record http_response : Type := {
  status : Z;
  json : json_result;
  text : string
}.

(** One outbound call: a response arrived, or the call raised. *)
Inductive outcome : Type :=
| Responded (r : http_response)
| Failed (e : exn).

End Http.

Import Http.

(** ** The document store *)

Module Mongo.

Definition document : Type := list (string * pyval).
Definition collection : Type := list document.

(** [$set] of one field: the value is replaced where the field exists, the
    field is added at the end where it does not. *)
Fixpoint set_field (key : string) (v : pyval) (d : document) : document :=
  match d with
  | [] => [(key, v)]
  | (k, x) :: rest =>
      if String.eqb k key then (k, v) :: rest
      else (k, x) :: set_field key v rest
  end.

(** [{'$set': fields}] applied to a document. *)
Definition apply_set (fields : document) (d : document) : document :=
  fold_left (fun acc kv => set_field (fst kv) (snd kv) acc) fields d.

(** A float that is the integer [n]: the store compares numbers by value,
    whatever their type. *)
Definition float_is (f : spec_float) (n : Z) : bool :=
  match f with
  | S754_zero _ => Z.eqb n 0
  | S754_finite s m e =>
      let signed := fun magnitude : Z => if s then - magnitude else magnitude in
      if 0 <=? e then Z.eqb (signed (Z.pos m * 2 ^ e)) n
      else Z.eqb (Z.pos m mod 2 ^ (- e)) 0
           && Z.eqb (signed (Z.pos m / 2 ^ (- e))) n
  | S754_infinity _ | S754_nan => false
  end.

(** The filter [{'_id': user_id}] with an integer [user_id]: it matches the
    number, stored as an integer or as a float. *)
Definition has_id (user_id : Z) (d : document) : bool :=
  match lookup "_id" d with
  | Some (PInt n) => Z.eqb n user_id
  | Some (PFloat f) => float_is f user_id
  | _ => false
  end.

(** [update_one({'_id': user_id}, {'$set': fields}, upsert=True)]: the first
    document the filter matches gets the fields; where none matches, a
    document made of the filter and the fields is inserted. *)
Fixpoint update_one (user_id : Z) (fields : document) (c : collection)
  : collection :=
  match c with
  | [] => [apply_set fields [("_id", PInt user_id)]]
  | d :: rest =>
      if has_id user_id d then apply_set fields d :: rest
      else d :: update_one user_id fields rest
  end.

(** The documents of a collection that the filter matches. *)
Definition find (user_id : Z) (c : collection) : list document :=
  filter (has_id user_id) c.

End Mongo.

(** ** Requests, responses and the world around one request *)

(** The values a page template is filled with. *)
Inductive page : Type :=
| SuccessPage (user_id : Z) (username : string)
| ErrorPage (error_code error_message error_hex timestamp : string).

Inductive body : Type :=
| Html (p : page)
| Json (o : Mongo.document).

Record response : Type := {
  statusCode : Z;
  headers : list (string * string);
  content : body
}.

(** The module-level globals [mongo_client] and [db] (set or [None]) and the
    [oauth_users] collection the handle leads to. *)
Record globals : Type := {
  mongo_client : bool;
  db : bool;
  oauth_users : Mongo.collection
}.

(** The world around one request. *)
Record Env : Type := {
  (** the token endpoint's answer to the form with this [code] *)
  post_token : string -> outcome;
  (** the profile endpoint's answer to this [Authorization] header *)
  get_users_me : string -> outcome;
  (** [int(time.time())] *)
  time_time : Z;
  (** [time.strftime("%Y-%m-%d %H:%M:%S")] *)
  time_strftime : string;
  (** [MongoClient(...)] raises *)
  client_raises : bool;
  (** [update_one] raises: server unreachable, document not encodable *)
  store_raises : bool
}.

(** The settings read at import time. *)
Record Config : Type := {
  PORT : Z;
  UVLOOP_ENABLED : bool
}.

(** A handler: it reads and writes the globals, and returns or raises. *)
Definition handler (A : Type) : Type := globals -> result A * globals.

Definition ret {A : Type} (a : A) : handler A := fun g => (Ret a, g).

Definition lift {A : Type} (m : result A) : handler A := fun g => (m, g).

Definition and_then {A B : Type} (m : handler A) (k : A -> handler B)
  : handler B :=
  fun g =>
    match m g with
    | (Ret a, g') => k a g'
    | (Raise e, g') => (Raise e, g')
    end.

Notation "x <- m ;; k" := (and_then m (fun x => k))
  (at level 61, m at next level, right associativity).

(** The value of a string that was tested to be set. *)
Definition unwrap (o : option string) : string :=
  match o with
  | Some s => s
  | None => ""
  end.

(** [o.get(key, default)] on a mapping from strings to strings. *)
Definition get_default (key : string) (q : list (string * string))
  (default : string) : string :=
  match lookup key q with
  | Some s => s
  | None => default
  end.

(** ** [service.py] *)

Module Service.

(** An incoming request: the query string as [request.query] has it (first
    value of a key wins), what the middleware stored on the request, and the
    peer address. *)
Record request : Type := {
  query : list (string * string);
  storage : Mongo.document;
  remote : option string
}.

Section Handlers.

Variable rt : Runtime.
Variable cfg : Config.
Variable env : Env.

Definition save_user_to_pool (user_id : Z) (username discriminator avatar : pyval)
  : handler bool :=
  fun g =>
    if negb (db g) then (Ret false, g)
    else if store_raises env then (Ret false, g)
    else
      let connected_at := time_time env in
      let doc := [ ("_id", PInt user_id);
                   ("username", username);
                   ("discriminator", discriminator);
                   ("avatar", avatar);
                   ("connected_at", PInt connected_at);
                   ("logged", PBool false);
                   ("pulled_guilds", PList []) ] in
      (Ret true,
       {| mongo_client := mongo_client g;
          db := db g;
          oauth_users := Mongo.update_one user_id doc (oauth_users g) |}).

Definition exchange_code (code : string) : pyval * option string :=
  match post_token env code with
  | Responded resp =>
      if negb (Z.eqb (status resp) 200) then
        let error_msg :=
          match json resp with
          | JsonOk (PDict error_data) =>
              match lookup "error_description" error_data with
              | Some m => m
              | None =>
                  match lookup "error" error_data with
                  | Some m => m
                  | None => PStr "Unknown error"
                  end
              end
          | _ =>
              let error_text := text resp in
              PStr (if (200 <? str_len rt error_text)%nat
                    then str_prefix rt 200 error_text else error_text)
          end in
        (PNone,
         Some ("Token exchange failed (" ++ str_of_int (status resp) ++ "): "
               ++ str rt error_msg))
      else
        match json resp with
        | JsonOk v => (v, None)
        | JsonRaises e =>
            (PNone, Some ("Invalid JSON response from Discord: " ++ message e))
        end
  | Failed e =>
      match class e with
      | Timeout => (PNone, Some "Token exchange timed out - Discord API slow")
      | ClientError =>
          (PNone, Some ("Network error during token exchange: " ++ message e))
      | Unexpected =>
          (PNone, Some ("Unexpected error during token exchange: " ++ message e))
      end
  end.

Definition get_user_info (access_token : pyval) : pyval * option string :=
  match get_users_me env ("Bearer " ++ str rt access_token) with
  | Responded resp =>
      if negb (Z.eqb (status resp) 200) then
        let error_msg :=
          match json resp with
          | JsonOk (PDict error_data) =>
              match lookup "message" error_data with
              | Some m => m
              | None => PStr "Unknown error"
              end
          | _ => PStr (text resp)
          end in
        (PNone,
         Some ("Failed to fetch user info (" ++ str_of_int (status resp) ++ "): "
               ++ str rt error_msg))
      else
        match json resp with
        | JsonOk v => (v, None)
        | JsonRaises e =>
            (PNone, Some ("Invalid JSON from Discord user API: " ++ message e))
        end
  | Failed e =>
      match class e with
      | Timeout => (PNone, Some "User info request timed out")
      | ClientError =>
          (PNone, Some ("Network error fetching user info: " ++ message e))
      | Unexpected =>
          (PNone, Some ("Unexpected error fetching user info: " ++ message e))
      end
  end.

(** [web.Response(text=html, content_type='text/html')] *)
Definition html_page (p : page) : response :=
  {| statusCode := 200;
     headers := [("Content-Type", "text/html; charset=utf-8")];
     content := Html p |}.

Definition render_error (error_code error_message : string) : response :=
  let error_hex := format_04X (str_hash rt error_code mod 65535) in
  let timestamp := time_strftime env in
  html_page (ErrorPage error_code error_message error_hex timestamp).

Definition handle_callback (req : request) : handler response :=
  let code := lookup "code" (query req) in
  let error := lookup "error" (query req) in
  if truthy_str error then
    let error_desc :=
      get_default "error_description" (query req) "Authorization was denied." in
    ret (render_error (str_upper rt (unwrap error)) error_desc)
  else if negb (truthy_str code) then
    ret (render_error "NO_CODE" "No authorization code received.")
  else
    let '(token_data, error) := exchange_code (unwrap code) in
    if truthy_str error then
      ret (render_error "TOKEN_ERROR" (unwrap error))
    else
      access_token <- lift (get token_data "access_token" PNone) ;;
      if negb (truthy access_token) then
        ret (render_error "NO_TOKEN" "No access token in response.")
      else
        let '(user_data, error) := get_user_info access_token in
        if truthy_str error then
          ret (render_error "USER_ERROR" (unwrap error))
        else
          user_id <- lift (bind (getitem user_data "id") (int rt)) ;;
          username <- lift (getitem user_data "username") ;;
          discriminator <- lift (get user_data "discriminator" (PStr "0")) ;;
          avatar <- lift (get user_data "avatar" PNone) ;;
          _ <- save_user_to_pool user_id username discriminator avatar ;;
          let display_name :=
            if ne_str discriminator "0"
            then PStr (str rt username ++ "#" ++ str rt discriminator)
            else username in
          ret (html_page (SuccessPage user_id (str rt display_name))).

Definition handle_error (req : request) : handler response :=
  let error_code := get_default "code" (query req) "AUTH_FAILED" in
  let error_message :=
    get_default "message" (query req) "Authorization was denied or expired." in
  ret (render_error error_code error_message).

(** [request.get(key, default)] on what the middleware stored. *)
Definition request_get (req : request) (key : string) (default : pyval) : pyval :=
  match lookup key (storage req) with
  | Some v => v
  | None => default
  end.

Definition handle_health (req : request) : handler response :=
  fun g =>
    let is_healthy := db g in
    let status_code := if is_healthy then 200 else 503 in
    (Ret
       {| statusCode := status_code;
          headers := [("Content-Type", "application/json; charset=utf-8")];
          content :=
            Json
              [ ("status", PStr (if is_healthy then "healthy" else "degraded"));
                ("timestamp", PInt (time_time env));
                ("service", PStr "yell-oauth-server");
                ("version", PStr "2.1.0");
                ("mongodb", PStr (if db g then "connected" else "disconnected"));
                ("uvloop", PBool (UVLOOP_ENABLED cfg));
                ("port", PInt (PORT cfg));
                ("aws_optimized", PBool true);
                ("features",
                 PList [PStr "gzip"; PStr "hsts"; PStr "csp";
                        PStr "graceful-shutdown"]);
                ("proxy_headers",
                 PList [PStr "X-Forwarded-For"; PStr "X-Forwarded-Proto";
                        PStr "X-Forwarded-Host"; PStr "X-Amzn-Trace-Id"]);
                ("client_ip",
                 request_get req "real_ip"
                   (match remote req with Some a => PStr a | None => PNone end));
                ("scheme", request_get req "real_scheme" (PStr "http"));
                ("request_id", request_get req "request_id" (PStr "")) ] |},
     g).

End Handlers.

End Service.

(** ** [lambda_oauth.py] *)

Module Lambda.

(** The API Gateway event, as far as the handler reads it.  A field is [None]
    where the event has no such key. *)
Record event : Type := {
  path : option string;
  rawPath : option string;
  queryStringParameters : option (list (string * string));
  rawQueryString : option string
}.

Section Handlers.

Variable rt : Runtime.
Variable env : Env.

(** Connects on first use; afterwards the handle is returned as it is. *)
Definition get_db : handler bool :=
  fun g =>
    if negb (mongo_client g) then
      if client_raises env then (Raise (OtherError "MongoClient"), g)
      else
        (Ret true,
         {| mongo_client := true; db := true; oauth_users := oauth_users g |})
    else (Ret (db g), g).

(** Every exception of the body is caught and turned into [False]. *)
Definition save_user_to_pool (user_id : Z) (username discriminator avatar : pyval)
  : handler bool :=
  fun g =>
    match get_db g with
    | (Raise _, g') => (Ret false, g')
    | (Ret database, g') =>
        if negb database then (Ret false, g')
        else if store_raises env then (Ret false, g')
        else
          let connected_at := time_time env in
          let doc := [ ("_id", PInt user_id);
                       ("username", username);
                       ("discriminator", discriminator);
                       ("avatar", avatar);
                       ("connected_at", PInt connected_at);
                       ("logged", PBool false);
                       ("pulled_guilds", PList []) ] in
          (Ret true,
           {| mongo_client := mongo_client g';
              db := db g';
              oauth_users := Mongo.update_one user_id doc (oauth_users g') |})
    end.

(** What the two [except] clauses of the client functions make of an
    exception; any other exception leaves the function. *)
Definition classify (timed_out network : string) (e : exn)
  : result (pyval * option string) :=
  match class e with
  | Timeout => Ret (PNone, Some timed_out)
  | ClientError => Ret (PNone, Some (network ++ message e))
  | Unexpected => Raise (OtherError (message e))
  end.

Definition exchange_code (code : string) : result (pyval * option string) :=
  match post_token env code with
  | Responded resp =>
      if negb (Z.eqb (status resp) 200) then
        let error_msg :=
          match json resp with
          | JsonOk (PDict error_data) =>
              match lookup "error_description" error_data with
              | Some m => m
              | None =>
                  match lookup "error" error_data with
                  | Some m => m
                  | None => PStr "Unknown error"
                  end
              end
          | _ => PStr (str_prefix rt 200 (text resp))
          end in
        Ret (PNone,
             Some ("Token exchange failed (" ++ str_of_int (status resp) ++ "): "
                   ++ str rt error_msg))
      else
        match json resp with
        | JsonOk v => Ret (v, None)
        | JsonRaises e => classify "Token exchange timed out" "Network error: " e
        end
  | Failed e => classify "Token exchange timed out" "Network error: " e
  end.

Definition get_user_info (access_token : pyval)
  : result (pyval * option string) :=
  match get_users_me env ("Bearer " ++ str rt access_token) with
  | Responded resp =>
      if negb (Z.eqb (status resp) 200) then
        let error_msg :=
          match json resp with
          | JsonOk (PDict error_data) =>
              match lookup "message" error_data with
              | Some m => m
              | None => PStr "Unknown error"
              end
          | _ => PStr (text resp)
          end in
        Ret (PNone,
             Some ("Failed to fetch user info (" ++ str_of_int (status resp)
                   ++ "): " ++ str rt error_msg))
      else
        match json resp with
        | JsonOk v => Ret (v, None)
        | JsonRaises e =>
            classify "User info request timed out" "Network error: " e
        end
  | Failed e => classify "User info request timed out" "Network error: " e
  end.

(** [urlencode] of the four constant parameters, after the authorize URL. *)
Definition get_oauth_url : string :=
  "https://discord.com/oauth2/authorize?client_id=1441348516835360870"
  ++ "&redirect_uri=https%3A%2F%2Foauth.yell.rest%2Fcallback"
  ++ "&response_type=code&scope=identify".

Definition render_success (user_id : Z) (username : pyval) : page :=
  SuccessPage user_id (str rt username).

Definition render_error (error_code error_message : string) : page :=
  let error_hex := format_04X (str_hash rt error_code mod 65535) in
  let timestamp := time_strftime env in
  ErrorPage error_code error_message error_hex timestamp.

Definition html_response (p : page) (status_code : Z) : response :=
  {| statusCode := status_code;
     headers := [ ("Content-Type", "text/html; charset=utf-8");
                  ("Cache-Control", "no-cache, no-store, must-revalidate");
                  ("X-Content-Type-Options", "nosniff");
                  ("X-Frame-Options", "SAMEORIGIN");
                  ("X-XSS-Protection", "1; mode=block") ];
     content := Html p |}.

Definition json_response (status_code : Z) (o : Mongo.document) : response :=
  {| statusCode := status_code;
     headers := [("Content-Type", "application/json")];
     content := Json o |}.

(** [query_params.get(key, [default])[0]] *)
Definition first_of (key : string) (query_params : list (string * list string))
  (default : option string) : result (option string) :=
  match lookup key query_params with
  | Some (v :: _) => Ret (Some v)
  | Some [] => Raise IndexError
  | None => Ret default
  end.

Definition handle_callback (query_params : list (string * list string))
  : handler response :=
  code <- lift (first_of "code" query_params None) ;;
  error <- lift (first_of "error" query_params None) ;;
  if truthy_str error then
    error_desc <- lift (first_of "error_description" query_params
                          (Some "Authorization was denied.")) ;;
    ret (html_response
           (render_error (str_upper rt (unwrap error)) (unwrap error_desc)) 200)
  else if negb (truthy_str code) then
    ret (html_response
           (render_error "NO_CODE" "No authorization code received.") 200)
  else
    exchanged <- lift (exchange_code (unwrap code)) ;;
    let '(token_data, err) := exchanged in
    if truthy_str err || match token_data with PNone => true | _ => false end
    then
      ret (html_response
             (render_error "TOKEN_ERROR"
                (if truthy_str err then unwrap err else "Token exchange failed"))
             200)
    else
      access_token <- lift (get token_data "access_token" PNone) ;;
      if negb (truthy access_token) then
        ret (html_response
               (render_error "NO_TOKEN" "No access token in response.") 200)
      else
        fetched <- lift (get_user_info access_token) ;;
        let '(user_data, err) := fetched in
        if truthy_str err || match user_data with PNone => true | _ => false end
        then
          ret (html_response
                 (render_error "USER_ERROR"
                    (if truthy_str err then unwrap err
                     else "Failed to fetch user data"))
                 200)
        else
          user_id <- lift (bind (getitem user_data "id") (int rt)) ;;
          username <- lift (getitem user_data "username") ;;
          discriminator <- lift (get user_data "discriminator" (PStr "0")) ;;
          avatar <- lift (get user_data "avatar" PNone) ;;
          _ <- save_user_to_pool user_id username discriminator avatar ;;
          let display_name :=
            if ne_str discriminator "0"
            then PStr (str rt username ++ "#" ++ str rt discriminator)
            else username in
          ret (html_response (render_success user_id display_name) 200).

Definition handle_error (query_params : list (string * list string))
  : handler response :=
  error_code <- lift (first_of "code" query_params (Some "AUTH_FAILED")) ;;
  error_message <- lift (first_of "message" query_params
                           (Some "Authorization was denied or expired.")) ;;
  ret (html_response (render_error (unwrap error_code) (unwrap error_message))
         200).

Definition lambda_handler (ev : event) : handler response :=
  let path :=
    if truthy_str (path ev) then unwrap (path ev)
    else match rawPath ev with Some p => p | None => "/" end in
  let query_params :=
    match queryStringParameters ev with
    | Some ((k, v) :: more) =>
        map (fun kv => (fst kv, [snd kv])) ((k, v) :: more)
    | _ =>
        if truthy_str (rawQueryString ev)
        then parse_qs rt (unwrap (rawQueryString ev))
        else []
    end in
  if String.eqb path "/callback" then handle_callback query_params
  else if String.eqb path "/error" then handle_error query_params
  else if String.eqb path "/health" then
    ret (json_response 200
           [ ("status", PStr "ok");
             ("timestamp", PInt (time_time env));
             ("service", PStr "oauth-lambda") ])
  else if String.eqb path "/oauth-url" then
    ret (json_response 200 [("oauth_url", PStr get_oauth_url)])
  else
    ret (json_response 404
           [ ("error", PStr "Not found");
             ("available_routes",
              PList [PStr "/callback"; PStr "/error"; PStr "/health";
                     PStr "/oauth-url"]) ]).

End Handlers.

End Lambda.

(** ** Reading a response *)

(** The error code an error page shows; [None] for any other response. *)
Definition error_code_of (r : response) : option string :=
  match content r with
  | Html (ErrorPage error_code _ _ _) => Some error_code
  | _ => None
  end.

(** The pseudo-hex code an error page shows. *)
Definition error_hex_of (r : response) : option string :=
  match content r with
  | Html (ErrorPage _ _ error_hex _) => Some error_hex
  | _ => None
  end.

(** The user id and the name a success page shows. *)
Definition success_of (r : response) : option (Z * string) :=
  match content r with
  | Html (SuccessPage user_id username) => Some (user_id, username)
  | _ => None
  end.

(** The value of a key in a JSON body. *)
Definition json_field (key : string) (r : response) : option pyval :=
  match content r with
  | Json o => lookup key o
  | _ => None
  end.

(** One of [0-9A-F], with its value. *)
Definition upper_hex_digit (c : ascii) : option Z :=
  let n := nat_of_ascii c in
  if ((48 <=? n) && (n <=? 57))%nat then Some (Z.of_nat n - 48)
  else if ((65 <=? n) && (n <=? 70))%nat then Some (Z.of_nat n - 55)
  else None.

(** The number a string of uppercase hexadecimal digits denotes. *)
Fixpoint hex_value_from (acc : Z) (s : string) : option Z :=
  match s with
  | EmptyString => Some acc
  | String c rest =>
      match upper_hex_digit c with
      | Some d => hex_value_from (16 * acc + d) rest
      | None => None
      end
  end.

Definition hex_value (s : string) : option Z := hex_value_from 0 s.

(** [s] is exactly four uppercase hexadecimal digits that denote [n]. *)
Definition four_hex_digits_of (n : Z) (s : string) : bool :=
  (String.length s =? 4)%nat
  && match hex_value s with Some v => Z.eqb v n | None => false end.

(** [p] holds of the [fuel] integers from [start] on. *)
Fixpoint all_from (fuel : nat) (start : Z) (p : Z -> bool) : bool :=
  match fuel with
  | O => true
  | S fuel => p start && all_from fuel (start + 1) p
  end.

(** ** The flow up to the profile *)

(** The same world with other store faults. *)
Definition with_store_faults (env : Env) (client store : bool) : Env :=
  {| post_token := post_token env;
     get_users_me := get_users_me env;
     time_time := time_time env;
     time_strftime := time_strftime env;
     client_raises := client;
     store_raises := store |}.

(** [service.py]: the request carries no (non-empty) [error], it carries a
    [code], and the exchange returns [token_data] without an error. *)
Inductive service_exchanges (rt : Runtime) (env : Env) (req : Service.request)
  (token_data : pyval) : Prop :=
| ServiceExchanges (code : string) (e1 : option string)
    (Herror : truthy_str (lookup "error" (Service.query req)) = false)
    (Hcode : lookup "code" (Service.query req) = Some code)
    (Hnonempty : code <> "")
    (Hexchange : Service.exchange_code rt env code = (token_data, e1))
    (He1 : truthy_str e1 = false).

(** Moreover the token is there, and the profile fetch returns [user_data]
    without an error. *)
Inductive service_obtains (rt : Runtime) (env : Env) (req : Service.request)
  (token_data user_data : pyval) : Prop :=
| ServiceObtains (access_token : pyval) (e2 : option string)
    (Hexchanged : service_exchanges rt env req token_data)
    (Htoken : get token_data "access_token" PNone = Ret access_token)
    (Htruthy : truthy access_token = true)
    (Hfetch : Service.get_user_info rt env access_token = (user_data, e2))
    (He2 : truthy_str e2 = false).

(** [lambda_oauth.py]: the same, through its own client functions; there a
    [None] payload counts as a failed call. *)
Inductive lambda_exchanges (rt : Runtime) (env : Env)
  (query_params : list (string * list string)) (token_data : pyval) : Prop :=
| LambdaExchanges (code : string) (error e1 : option string)
    (Hcode : Lambda.first_of "code" query_params None = Ret (Some code))
    (Herror : Lambda.first_of "error" query_params None = Ret error)
    (Hfalsy : truthy_str error = false)
    (Hnonempty : code <> "")
    (Hexchange : Lambda.exchange_code rt env code = Ret (token_data, e1))
    (He1 : truthy_str e1 = false)
    (Hpayload : token_data <> PNone).

Inductive lambda_obtains (rt : Runtime) (env : Env)
  (query_params : list (string * list string)) (token_data user_data : pyval)
  : Prop :=
| LambdaObtains (access_token : pyval) (e2 : option string)
    (Hexchanged : lambda_exchanges rt env query_params token_data)
    (Htoken : get token_data "access_token" PNone = Ret access_token)
    (Htruthy : truthy access_token = true)
    (Hfetch : Lambda.get_user_info rt env access_token = Ret (user_data, e2))
    (He2 : truthy_str e2 = false)
    (Hprofile : user_data <> PNone).

(** A token payload without an access-token field: an object that lacks the
    key, or a value that is no object and so has no fields. *)
Definition lacks_access_token (token_data : pyval) : Prop :=
  match token_data with
  | PDict d => lookup "access_token" d = None
  | _ => True
  end.

(** The handler returned a page that shows this error code. *)
Definition shows_error (out : result response * globals) (error_code : string)
  : Prop :=
  exists r : response, fst out = Ret r /\ error_code_of r = Some error_code.

(** The handler returned a page that greets this user under this name. *)
Definition shows_success (out : result response * globals) (user_id : Z)
  (username : string) : Prop :=
  exists r : response,
    fst out = Ret r /\ success_of r = Some (user_id, username).

(** The name the success page shows for a profile. *)
Definition display_name (rt : Runtime) (username : pyval)
  (discriminator : option pyval) : string :=
  match discriminator with
  | None => str rt username
  | Some d =>
      if ne_str d "0" then str rt username ++ "#" ++ str rt d
      else str rt username
  end.

(** [d.get(key, default)] on the items of a dict. *)
Definition lookup_default (key : string) (d : list (string * pyval))
  (default : pyval) : pyval :=
  match lookup key d with
  | Some v => v
  | None => default
  end.

(** ** The store across calls *)

(** The seven fields of a user record. *)
Definition user_record_fields : list string :=
  ["_id"; "username"; "discriminator"; "avatar"; "connected_at"; "logged";
   "pulled_guilds"].

(** The document [save_user_to_pool] builds. *)
Definition user_record (user_id : Z) (username discriminator avatar : pyval)
  (connected_at : Z) : Mongo.document :=
  [ ("_id", PInt user_id);
    ("username", username);
    ("discriminator", discriminator);
    ("avatar", avatar);
    ("connected_at", PInt connected_at);
    ("logged", PBool false);
    ("pulled_guilds", PList []) ].

(** At most one document per integer id. *)
Definition unique_ids (c : Mongo.collection) : Prop :=
  forall user_id : Z, (List.length (Mongo.find user_id c) <= 1)%nat.

(** What one upsert of a user makes of a collection [c]: in the result [c']
    exactly one document has the id; it carries the seven fields as given,
    with [logged] false and [pulled_guilds] empty; where the id was new it is
    the written record itself, and where the id had a document, every other
    field of that document is still there; and the documents of the other
    ids are the same as before. *)
Definition upserted (user_id : Z) (username discriminator avatar : pyval)
  (connected_at : Z) (c c' : Mongo.collection) : Prop :=
  (exists doc : Mongo.document,
      Mongo.find user_id c' = [doc]
      /\ lookup "_id" doc = Some (PInt user_id)
      /\ lookup "username" doc = Some username
      /\ lookup "discriminator" doc = Some discriminator
      /\ lookup "avatar" doc = Some avatar
      /\ lookup "connected_at" doc = Some (PInt connected_at)
      /\ lookup "logged" doc = Some (PBool false)
      /\ lookup "pulled_guilds" doc = Some (PList [])
      /\ (Mongo.find user_id c = [] ->
          forall key : string,
            lookup key doc
            = lookup key
                (user_record user_id username discriminator avatar
                   connected_at))
      /\ (forall old : Mongo.document,
             Mongo.find user_id c = [old] ->
             forall key : string,
               ~ In key user_record_fields ->
               lookup key doc = lookup key old))
  /\ (forall other : Z,
        other <> user_id -> Mongo.find other c' = Mongo.find other c)
  /\ unique_ids c'.

(** One call of [save_user_to_pool], with the world it runs in. *)
Record upsert_call : Type := {
  call_env : Env;
  call_user_id : Z;
  call_username : pyval;
  call_discriminator : pyval;
  call_avatar : pyval
}.

Definition service_upserts (calls : list upsert_call) (g : globals) : globals :=
  fold_left
    (fun g c =>
       snd (Service.save_user_to_pool (call_env c) (call_user_id c)
              (call_username c) (call_discriminator c) (call_avatar c) g))
    calls g.

Definition lambda_upserts (calls : list upsert_call) (g : globals) : globals :=
  fold_left
    (fun g c =>
       snd (Lambda.save_user_to_pool (call_env c) (call_user_id c)
              (call_username c) (call_discriminator c) (call_avatar c) g))
    calls g.

(** ** A world to run the handlers in *)

Definition ascii_upper (c : ascii) : ascii :=
  let n := nat_of_ascii c in
  if ((97 <=? n) && (n <=? 122))%nat then ascii_of_nat (n - 32) else c.

Fixpoint upper_ascii (s : string) : string :=
  match s with
  | EmptyString => EmptyString
  | String c rest => String (ascii_upper c) (upper_ascii rest)
  end.

(** [int] on a string of ASCII characters: blanks around, a sign, digits
    with single underscores between them. *)
Definition ascii_space (c : ascii) : bool :=
  let n := nat_of_ascii c in
  ((9 <=? n) && (n <=? 13) || (n =? 32))%nat.

Definition ascii_digit (c : ascii) : option Z :=
  let n := nat_of_ascii c in
  if ((48 <=? n) && (n <=? 57))%nat then Some (Z.of_nat n - 48) else None.

Fixpoint ascii_lstrip (s : string) : string :=
  match s with
  | String c rest => if ascii_space c then ascii_lstrip rest else s
  | EmptyString => s
  end.

(** Drops trailing blanks: a blank is kept only when something follows it. *)
Fixpoint ascii_rstrip (s : string) : string :=
  match s with
  | EmptyString => EmptyString
  | String c rest =>
      match ascii_rstrip rest with
      | EmptyString =>
          if ascii_space c then EmptyString else String c EmptyString
      | rest' => String c rest'
      end
  end.

(** [acc] is the value read so far, [after_digit] tells that the previous
    character was a digit (so that an underscore may follow). *)
Fixpoint ascii_digits (s : string) (acc : Z) (after_digit : bool) : option Z :=
  match s with
  | EmptyString => if after_digit then Some acc else None
  | String c rest =>
      match ascii_digit c with
      | Some d => ascii_digits rest (10 * acc + d) true
      | None =>
          if (Ascii.eqb c "_" && after_digit)%bool
          then ascii_digits rest acc false
          else None
      end
  end.

Definition ascii_int (s : string) : option Z :=
  let body := ascii_rstrip (ascii_lstrip s) in
  let '(negative, numeral) :=
    match body with
    | String "-" rest => (true, rest)
    | String "+" rest => (false, rest)
    | _ => (false, body)
    end in
  match ascii_digits numeral 0 false with
  | Some n => Some (if negative then - n else n)
  | None => None
  end.

(** A runtime for ASCII text whose [hash] is the given function.  [repr] and
    [parse_qs] are called by none of the runs below. *)
Definition ascii_runtime (hash : string -> Z) : Runtime :=
  {| str_upper := upper_ascii;
     str_hash := hash;
     py_repr := fun _ => "";
     str_int := ascii_int;
     str_len := String.length;
     str_prefix := fun n s => String.substring 0 n s;
     parse_qs := fun _ => [] |}.

Definition ok_json (v : pyval) : outcome :=
  Responded {| status := 200; json := JsonOk v; text := "" |}.

(** A provider that answers every token request with [token] and every
    profile request with [profile]; the store works. *)
Definition provider (token profile : pyval) : Env :=
  {| post_token := fun _ => ok_json token;
     get_users_me := fun _ => ok_json profile;
     time_time := 1700000000;
     time_strftime := "2023-11-14 22:13:20";
     client_raises := false;
     store_raises := false |}.

Definition bearer_token : pyval :=
  PDict [("access_token", PStr "tok"); ("token_type", PStr "Bearer")].

Definition service_request (q : list (string * string)) : Service.request :=
  {| Service.query := q; Service.storage := []; Service.remote := None |}.

Definition connected : globals :=
  {| mongo_client := true; db := true; oauth_users := [] |}.

Definition disconnected : globals :=
  {| mongo_client := false; db := false; oauth_users := [] |}.

(** Globals whose collection already holds user 123, processed by the
    consumer. *)
Definition known_user : globals :=
  {| mongo_client := true;
     db := true;
     oauth_users :=
       [ [ ("_id", PInt 123);
           ("username", PStr "alice");
           ("discriminator", PStr "0");
           ("avatar", PNone);
           ("connected_at", PInt 1600000000);
           ("logged", PBool true);
           ("pulled_guilds", PList [PStr "guild"]) ] ] |}.

(** Globals whose collection holds user 123 with a field of its own that
    another writer put there. *)
Definition annotated_user : globals :=
  {| mongo_client := true;
     db := true;
     oauth_users :=
       [ [ ("_id", PInt 123);
           ("username", PStr "alice");
           ("discriminator", PStr "0");
           ("avatar", PNone);
           ("connected_at", PInt 1600000000);
           ("logged", PBool true);
           ("pulled_guilds", PList [PStr "guild"]);
           ("note", PStr "vip") ] ] |}.


(** The event of a health probe. *)
Definition health_event : Lambda.event :=
  {| Lambda.path := Some "/health";
     Lambda.rawPath := None;
     Lambda.queryStringParameters := None;
     Lambda.rawQueryString := None |}.

(** ** The provider's answers, read apart *)

(** The decoded body of an answer with status 200; [None] for any other
    outcome of the call. *)
Definition payload_of (o : outcome) : option pyval :=
  match o with
  | Responded resp =>
      if Z.eqb (status resp) 200 then
        match json resp with
        | JsonOk v => Some v
        | JsonRaises _ => None
        end
      else None
  | Failed _ => None
  end.

(** The exception that neither [except] clause of the client functions of
    [lambda_oauth.py] catches: one that is no timeout and no request
    exception, raised by the call or by decoding a 200 answer. *)
Definition uncaught_of (o : outcome) : option exn :=
  match o with
  | Responded resp =>
      if Z.eqb (status resp) 200 then
        match json resp with
        | JsonRaises e =>
            match class e with Unexpected => Some e | _ => None end
        | JsonOk _ => None
        end
      else None
  | Failed e => match class e with Unexpected => Some e | _ => None end
  end.

(** [service.py]: the request gets as far as the exchange of [code]. *)
Definition service_asks (req : Service.request) (code : string) : Prop :=
  truthy_str (lookup "error" (Service.query req)) = false
  /\ lookup "code" (Service.query req) = Some code
  /\ code <> "".

(** [lambda_oauth.py]: the same. *)
Definition lambda_asks (query_params : list (string * list string))
  (code : string) : Prop :=
  Lambda.first_of "code" query_params None = Ret (Some code)
  /\ (exists error : option string,
         Lambda.first_of "error" query_params None = Ret error
         /\ truthy_str error = false)
  /\ code <> "".

(** A provider whose token endpoint fails with the exception [e]. *)
Definition failing_token (e : exn) : Env :=
  {| post_token := fun _ => Failed e;
     get_users_me := fun _ => ok_json PNone;
     time_time := 1700000000;
     time_strftime := "2023-11-14 22:13:20";
     client_raises := false;
     store_raises := false |}.

(** A provider that hands out a token and answers the profile request with
    status 401. *)
Definition unauthorized : Env :=
  {| post_token := fun _ => ok_json bearer_token;
     get_users_me :=
       fun _ =>
         Responded
           {| status := 401;
              json := JsonOk (PDict [("message", PStr "401: Unauthorized")]);
              text := "" |};
     time_time := 1700000000;
     time_strftime := "2023-11-14 22:13:20";
     client_raises := false;
     store_raises := false |}.

(** ** Events of the Lambda deployment *)

(** The path [lambda_handler] routes on: [path] when it is set and not
    empty, else [rawPath], else the root. *)
Definition requested_path (ev : Lambda.event) : string :=
  match Lambda.path ev with
  | Some (String c p) => String c p
  | _ =>
      match Lambda.rawPath ev with
      | Some p => p
      | None => "/"
      end
  end.

(** The four routes of [lambda_handler]. *)
Definition lambda_routes : list string :=
  ["/callback"; "/error"; "/health"; "/oauth-url"].


(** A REST event for this path and these parameters. *)
Definition rest_event (path : string) (q : list (string * string))
  : Lambda.event :=
  {| Lambda.path := Some path;
     Lambda.rawPath := None;
     Lambda.queryStringParameters := Some q;
     Lambda.rawQueryString := None |}.

(** * Properties *)

(** ** The store *)

Lemma lookup_set_field (key k : string) (v : pyval) (d : Mongo.document) :
  lookup key (Mongo.set_field k v d)
  = if String.eqb k key then Some v else lookup key d.
Proof.
  induction d as [|[k0 x] rest IH]; simpl.
  - reflexivity.
  - destruct (String.eqb_spec k0 k) as [->|Hk]; simpl.
    + destruct (String.eqb k key); reflexivity.
    + rewrite IH.
      destruct (String.eqb_spec k0 key) as [->|Hkey]; [|reflexivity].
      destruct (String.eqb_spec k key) as [->|_]; [contradiction|reflexivity].
Qed.

(** [$set] of a user record: its seven fields win, the others stay. *)
Lemma lookup_apply_set (key : string) (user_id : Z) (u ds av : pyval) (t : Z)
  (d : Mongo.document) :
  lookup key (Mongo.apply_set (user_record user_id u ds av t) d)
  = match lookup key (user_record user_id u ds av t) with
    | Some v => Some v
    | None => lookup key d
    end.
Proof.
  unfold Mongo.apply_set, user_record. cbn [fold_left fst snd].
  rewrite !lookup_set_field. cbn [lookup].
  repeat match goal with
         | |- context [String.eqb ?a key] =>
             destruct (String.eqb_spec a key) as [<-|?]; [reflexivity|]
         end.
  reflexivity.
Qed.

Lemma has_id_apply_set (user_id other : Z) (u ds av : pyval) (t : Z)
  (d : Mongo.document) :
  Mongo.has_id other (Mongo.apply_set (user_record user_id u ds av t) d)
  = Z.eqb user_id other.
Proof.
  unfold Mongo.has_id. rewrite lookup_apply_set. reflexivity.
Qed.

Lemma float_is_eq (f : spec_float) (n other : Z) :
  Mongo.float_is f n = true -> Mongo.float_is f other = Z.eqb n other.
Proof.
  unfold Mongo.float_is. destruct f as [s|s| |s m e]; try discriminate.
  - intros H. apply Z.eqb_eq in H. subst n. apply Z.eqb_sym.
  - destruct (0 <=? e).
    + intros H. apply Z.eqb_eq in H. rewrite H. reflexivity.
    + intros H. apply andb_true_iff in H as [H0 H]. apply Z.eqb_eq in H.
      rewrite H0, H. reflexivity.
Qed.

Lemma has_id_eq (user_id other : Z) (d : Mongo.document) :
  Mongo.has_id user_id d = true -> Mongo.has_id other d = Z.eqb user_id other.
Proof.
  unfold Mongo.has_id. destruct (lookup "_id" d) as [[]|]; try discriminate.
  - intros H. apply Z.eqb_eq in H. subst. reflexivity.
  - apply float_is_eq.
Qed.

Lemma find_update_one_other (user_id other : Z) (u ds av : pyval) (t : Z)
  (c : Mongo.collection) :
  other <> user_id ->
  Mongo.find other (Mongo.update_one user_id (user_record user_id u ds av t) c)
  = Mongo.find other c.
Proof.
  intros Hne. assert (Hneq : Z.eqb user_id other = false) by (apply Z.eqb_neq; lia).
  unfold Mongo.find. induction c as [|d rest IH]; cbn [Mongo.update_one filter].
  - rewrite has_id_apply_set, Hneq. reflexivity.
  - destruct (Mongo.has_id user_id d) eqn:Hd; cbn [filter].
    + rewrite has_id_apply_set, (has_id_eq _ other _ Hd), Hneq. reflexivity.
    + rewrite IH. reflexivity.
Qed.

Lemma find_update_one_same (user_id : Z) (u ds av : pyval) (t : Z)
  (c : Mongo.collection) :
  Mongo.find user_id
    (Mongo.update_one user_id (user_record user_id u ds av t) c)
  = match Mongo.find user_id c with
    | [] => [Mongo.apply_set (user_record user_id u ds av t)
               [("_id", PInt user_id)]]
    | old :: more => Mongo.apply_set (user_record user_id u ds av t) old :: more
    end.
Proof.
  unfold Mongo.find. induction c as [|d rest IH]; cbn [Mongo.update_one filter].
  - rewrite has_id_apply_set, Z.eqb_refl. reflexivity.
  - destruct (Mongo.has_id user_id d) eqn:Hd; cbn [filter].
    + rewrite has_id_apply_set, Z.eqb_refl. reflexivity.
    + rewrite Hd. exact IH.
Qed.

Lemma unique_ids_update_one (user_id : Z) (u ds av : pyval) (t : Z)
  (c : Mongo.collection) :
  unique_ids c ->
  unique_ids (Mongo.update_one user_id (user_record user_id u ds av t) c).
Proof.
  intros Hc other. destruct (Z.eq_dec other user_id) as [->|Hne].
  - rewrite find_update_one_same. specialize (Hc user_id).
    destruct (Mongo.find user_id c) as [|old more]; simpl in *; lia.
  - rewrite find_update_one_other by assumption. apply Hc.
Qed.

Lemma lookup_other_field (key : string) (user_id : Z) (u ds av : pyval)
  (t : Z) :
  ~ In key user_record_fields ->
  lookup key (user_record user_id u ds av t) = None.
Proof.
  intros Hnot. unfold user_record. cbn [lookup].
  repeat match goal with
         | |- context [String.eqb ?a key] =>
             destruct (String.eqb_spec a key) as [Heq|_];
             [exfalso; apply Hnot; rewrite <- Heq; simpl; tauto|]
         end.
  reflexivity.
Qed.

Lemma update_one_upserted (user_id : Z) (u ds av : pyval) (t : Z)
  (c : Mongo.collection) :
  unique_ids c ->
  upserted user_id u ds av t c
    (Mongo.update_one user_id (user_record user_id u ds av t) c).
Proof.
  intros Hc. split; [|split].
  - rewrite find_update_one_same. pose proof (Hc user_id) as Hlen.
    destruct (Mongo.find user_id c) as [|old more] eqn:Hfind.
    + eexists. split; [reflexivity|].
      repeat (split; [rewrite lookup_apply_set; reflexivity|]).
      split.
      * intros _ key. rewrite lookup_apply_set.
        destruct (lookup key (user_record user_id u ds av t)) eqn:Hk;
          [reflexivity|].
        cbn [lookup]. destruct (String.eqb_spec "_id" key) as [<-|_];
          [discriminate Hk|reflexivity].
      * intros old Hold. discriminate Hold.
    + destruct more as [|? ?]; [|simpl in Hlen; lia].
      eexists. split; [reflexivity|].
      repeat (split; [rewrite lookup_apply_set; reflexivity|]).
      split.
      * intros Hnone. discriminate Hnone.
      * intros old' [= <-] key Hnot.
        rewrite lookup_apply_set, (lookup_other_field key _ _ _ _ _ Hnot).
        reflexivity.
  - intros other Hne. apply find_update_one_other. exact Hne.
  - apply unique_ids_update_one. exact Hc.
Qed.

(** What a call leaves in the collection: the upsert, or nothing. *)
Lemma service_save_users (env : Env) (user_id : Z) (u ds av : pyval)
  (g : globals) :
  let out := Service.save_user_to_pool env user_id u ds av g in
  (fst out = Ret true
   /\ oauth_users (snd out)
      = Mongo.update_one user_id (user_record user_id u ds av (time_time env))
          (oauth_users g))
  \/ (fst out = Ret false /\ snd out = g).
Proof.
  unfold Service.save_user_to_pool.
  destruct (db g); cbn [negb]; [|right; split; reflexivity].
  destruct (store_raises env); [right; split; reflexivity|].
  left. split; reflexivity.
Qed.

Lemma lambda_save_users (env : Env) (user_id : Z) (u ds av : pyval)
  (g : globals) :
  let out := Lambda.save_user_to_pool env user_id u ds av g in
  (fst out = Ret true
   /\ oauth_users (snd out)
      = Mongo.update_one user_id (user_record user_id u ds av (time_time env))
          (oauth_users g))
  \/ (fst out = Ret false /\ oauth_users (snd out) = oauth_users g).
Proof.
  unfold Lambda.save_user_to_pool, Lambda.get_db.
  destruct (mongo_client g); cbn [negb].
  - destruct (db g); cbn [negb]; [|right; split; reflexivity].
    destruct (store_raises env); [right; split; reflexivity|].
    left. split; reflexivity.
  - destruct (client_raises env); [right; split; reflexivity|].
    cbn [negb]. destruct (store_raises env); [right; split; reflexivity|].
    left. split; reflexivity.
Qed.

(** C9, as amended.  [save_user_to_pool] stores exactly when the store is
    reachable and the write does not raise, and then it has upserted the
    user: the collection holds exactly one document with the id, which
    carries the given fields, [connected_at] of this call, [logged] false and
    [pulled_guilds] empty; it is the written record where the id was new,
    and where the id had a document the seven fields are set in it and its
    other fields are kept; the other ids keep their documents.  A call that
    does not store leaves the collection as it was.  So a collection with at
    most one document per id still has at most one per id after any sequence
    of calls.  This holds for [service.py] and for [lambda_oauth.py]. *)
Theorem upsert_replaces_or_inserts :
  forall (env : Env) (user_id : Z) (username discriminator avatar : pyval)
         (g : globals),
    unique_ids (oauth_users g) ->
    (fst (Service.save_user_to_pool env user_id username discriminator avatar g)
     = Ret (db g && negb (store_raises env))
     /\ (db g && negb (store_raises env) = true ->
         upserted user_id username discriminator avatar (time_time env)
           (oauth_users g)
           (oauth_users
              (snd (Service.save_user_to_pool env user_id username
                      discriminator avatar g))))
     /\ (db g && negb (store_raises env) = false ->
         snd (Service.save_user_to_pool env user_id username discriminator
                avatar g) = g))
    /\ (fst (Lambda.save_user_to_pool env user_id username discriminator
               avatar g)
        = Ret ((if mongo_client g then db g else negb (client_raises env))
               && negb (store_raises env))
        /\ ((if mongo_client g then db g else negb (client_raises env))
            && negb (store_raises env) = true ->
            upserted user_id username discriminator avatar (time_time env)
              (oauth_users g)
              (oauth_users
                 (snd (Lambda.save_user_to_pool env user_id username
                         discriminator avatar g))))
        /\ ((if mongo_client g then db g else negb (client_raises env))
            && negb (store_raises env) = false ->
            oauth_users
              (snd (Lambda.save_user_to_pool env user_id username
                      discriminator avatar g))
            = oauth_users g))
    /\ (forall calls : list upsert_call,
           unique_ids (oauth_users (service_upserts calls g))
           /\ unique_ids (oauth_users (lambda_upserts calls g))).
Proof.
  intros env user_id u ds av g Hg. split; [|split].
  - unfold Service.save_user_to_pool.
    destruct (db g); cbn [negb andb];
      [|split; [reflexivity|split; [discriminate|reflexivity]]].
    destruct (store_raises env); cbn [negb fst snd oauth_users];
      [split; [reflexivity|split; [discriminate|reflexivity]]|].
    split; [reflexivity|]. split; [|discriminate].
    intros _. apply update_one_upserted. exact Hg.
  - unfold Lambda.save_user_to_pool, Lambda.get_db.
    destruct (mongo_client g); cbn [negb].
    + destruct (db g); cbn [negb andb];
        [|split; [reflexivity|split; [discriminate|reflexivity]]].
      destruct (store_raises env); cbn [negb fst snd oauth_users];
        [split; [reflexivity|split; [discriminate|reflexivity]]|].
      split; [reflexivity|]. split; [|discriminate].
      intros _. apply update_one_upserted. exact Hg.
    + destruct (client_raises env); cbn [negb andb];
        [split; [reflexivity|split; [discriminate|reflexivity]]|].
      destruct (store_raises env); cbn [negb fst snd oauth_users];
        [split; [reflexivity|split; [discriminate|reflexivity]]|].
      split; [reflexivity|]. split; [|discriminate].
      intros _. apply update_one_upserted. exact Hg.
  - intros calls. revert g Hg.
    induction calls as [|c calls IH]; intros g Hg; [split; exact Hg|].
    unfold service_upserts, lambda_upserts in *. cbn [fold_left]. split.
    + apply IH.
      destruct (service_save_users (call_env c) (call_user_id c)
                  (call_username c) (call_discriminator c) (call_avatar c) g)
        as [[_ ->]|[_ ->]];
        [apply unique_ids_update_one|]; exact Hg.
    + apply IH.
      destruct (lambda_save_users (call_env c) (call_user_id c)
                  (call_username c) (call_discriminator c) (call_avatar c) g)
        as [[_ ->]|[_ ->]];
        [apply unique_ids_update_one|]; exact Hg.
Qed.

Lemma unique_ids_single (d : Mongo.document) : unique_ids [d].
Proof.
  intros user_id. unfold Mongo.find. cbn [filter].
  destruct (Mongo.has_id user_id d); simpl; lia.
Qed.

Lemma upsert_replaces_or_inserts_witness :
  upserted 123 (PStr "alice") (PStr "0") PNone 1700000000
    (oauth_users known_user)
    (oauth_users
       (snd (Service.save_user_to_pool (provider bearer_token PNone) 123
               (PStr "alice") (PStr "0") PNone known_user)))
  /\ upserted 123 (PStr "alice") (PStr "0") PNone 1700000000
       (oauth_users known_user)
       (oauth_users
          (snd (Lambda.save_user_to_pool (provider bearer_token PNone) 123
                  (PStr "alice") (PStr "0") PNone known_user))).
Proof.
  split.
  - refine (proj1 (proj2 (proj1 (upsert_replaces_or_inserts
                                   (provider bearer_token PNone) 123
                                   (PStr "alice") (PStr "0") PNone known_user
                                   _))) _).
    + apply unique_ids_single.
    + reflexivity.
  - refine (proj1 (proj2 (proj1 (proj2 (upsert_replaces_or_inserts
                                          (provider bearer_token PNone) 123
                                          (PStr "alice") (PStr "0") PNone
                                          known_user _)))) _).
    + apply unique_ids_single.
    + reflexivity.
Defined.

(** C9, as stated, fails: the upsert does not replace the record.  The
    document of user 123 has a field [note]; after the save the stored
    document still has it, so it is not the written record. *)
Lemma upsert_keeps_other_fields :
  ~ (forall (env : Env) (user_id : Z) (username discriminator avatar : pyval)
            (g : globals),
        unique_ids (oauth_users g) ->
        fst (Service.save_user_to_pool env user_id username discriminator
               avatar g) = Ret true ->
        exists doc : Mongo.document,
          Mongo.find user_id
            (oauth_users
               (snd (Service.save_user_to_pool env user_id username
                       discriminator avatar g)))
          = [doc]
          /\ forall key : string,
               lookup key doc
               = lookup key
                   (user_record user_id username discriminator avatar
                      (time_time env))).
Proof.
  intros H.
  destruct (H (provider bearer_token PNone) 123 (PStr "alice") (PStr "0")
              PNone annotated_user (unique_ids_single _) eq_refl)
    as [doc [Hfind Hdoc]].
  vm_compute in Hfind. injection Hfind as <-.
  specialize (Hdoc "note"). vm_compute in Hdoc. discriminate Hdoc.
Qed.

(** ** The callback of [service.py] *)

Lemma truthy_str_some (s : string) : s <> "" -> truthy_str (Some s) = true.
Proof.
  intros Hs. unfold truthy_str.
  destruct (String.eqb_spec s ""); [contradiction|reflexivity].
Qed.

(** Once the profile is there, the handler is what follows the fetch. *)
Lemma service_after_profile (rt : Runtime) (env : Env) (req : Service.request)
  (token_data user_data : pyval) (g : globals) :
  service_obtains rt env req token_data user_data ->
  Service.handle_callback rt env req g
  = (user_id <- lift (bind (getitem user_data "id") (int rt)) ;;
     username <- lift (getitem user_data "username") ;;
     discriminator <- lift (get user_data "discriminator" (PStr "0")) ;;
     avatar <- lift (get user_data "avatar" PNone) ;;
     _ <- Service.save_user_to_pool env user_id username discriminator avatar ;;
     ret (Service.html_page
            (SuccessPage user_id
               (str rt (if ne_str discriminator "0"
                        then PStr (str rt username ++ "#" ++ str rt discriminator)
                        else username))))) g.
Proof.
  intros [access_token e2 [code e1 Herror Hcode Hne Hex He1] Htok Htru Hfetch He2].
  unfold Service.handle_callback.
  rewrite Herror, Hcode, (truthy_str_some code Hne). cbn [negb unwrap].
  rewrite Hex, He1. unfold and_then at 1. unfold lift at 1.
  rewrite Htok, Htru. cbn [negb]. rewrite Hfetch, He2. reflexivity.
Qed.

(** A profile with a readable id and a username ends in the success page,
    with whatever [save_user_to_pool] left in the globals. *)
Lemma service_callback_success (rt : Runtime) (env : Env)
  (req : Service.request) (token_data : pyval) (d : list (string * pyval))
  (id_value username : pyval) (user_id : Z) (g : globals) :
  service_obtains rt env req token_data (PDict d) ->
  lookup "id" d = Some id_value ->
  int rt id_value = Ret user_id ->
  lookup "username" d = Some username ->
  Service.handle_callback rt env req g
  = (Ret (Service.html_page
            (SuccessPage user_id
               (display_name rt username (lookup "discriminator" d)))),
     snd (Service.save_user_to_pool env user_id username
            (lookup_default "discriminator" d (PStr "0"))
            (lookup_default "avatar" d PNone) g)).
Proof.
  intros Hob Hid Hint Hname. rewrite (service_after_profile _ _ _ _ _ _ Hob).
  unfold and_then, lift, ret, bind, getitem, get, lookup_default, display_name.
  rewrite Hid, Hint, Hname.
  destruct (service_save_users env user_id username
              (match lookup "discriminator" d with
               | Some v => v | None => PStr "0" end)
              (match lookup "avatar" d with Some v => v | None => PNone end) g)
    as [[Hfst _]|[Hfst _]];
    destruct (lookup "discriminator" d) as [x|]; destruct (lookup "avatar" d);
    cbn zeta in Hfst;
    destruct (Service.save_user_to_pool _ _ _ _ _ _) as [[b|e] g'];
    cbn [fst snd] in *; try discriminate;
    try (destruct (ne_str x "0")); reflexivity.
Qed.

(** ** The callback of [lambda_oauth.py] *)

Lemma is_none_false (v : pyval) :
  v <> PNone -> match v with PNone => true | _ => false end = false.
Proof. destruct v; intros H; [contradiction H|..]; reflexivity. Qed.

Lemma lambda_after_profile (rt : Runtime) (env : Env)
  (query_params : list (string * list string)) (token_data user_data : pyval)
  (g : globals) :
  lambda_obtains rt env query_params token_data user_data ->
  Lambda.handle_callback rt env query_params g
  = (user_id <- lift (bind (getitem user_data "id") (int rt)) ;;
     username <- lift (getitem user_data "username") ;;
     discriminator <- lift (get user_data "discriminator" (PStr "0")) ;;
     avatar <- lift (get user_data "avatar" PNone) ;;
     _ <- Lambda.save_user_to_pool env user_id username discriminator avatar ;;
     ret (Lambda.html_response
            (Lambda.render_success rt user_id
               (if ne_str discriminator "0"
                then PStr (str rt username ++ "#" ++ str rt discriminator)
                else username)) 200)) g.
Proof.
  intros [access_token e2 [code error e1 Hcode Herror Hfalsy Hne Hex He1 Hpay]
            Htok Htru Hfetch He2 Hprof].
  unfold Lambda.handle_callback.
  unfold and_then at 1. unfold lift at 1. rewrite Hcode.
  unfold and_then at 1. unfold lift at 1. rewrite Herror, Hfalsy.
  rewrite (truthy_str_some code Hne). cbn [negb unwrap].
  unfold and_then at 1. unfold lift at 1. rewrite Hex, He1.
  rewrite (is_none_false _ Hpay). cbn [orb].
  unfold and_then at 1. unfold lift at 1. rewrite Htok, Htru. cbn [negb].
  unfold and_then at 1. unfold lift at 1. rewrite Hfetch, He2.
  rewrite (is_none_false _ Hprof). reflexivity.
Qed.

Lemma lambda_save_returns (env : Env) (user_id : Z) (u ds av : pyval)
  (g : globals) :
  exists b : bool,
    fst (Lambda.save_user_to_pool env user_id u ds av g) = Ret b.
Proof.
  destruct (lambda_save_users env user_id u ds av g) as [[H _]|[H _]]; eauto.
Qed.

Lemma lambda_callback_success (rt : Runtime) (env : Env)
  (query_params : list (string * list string)) (token_data : pyval)
  (d : list (string * pyval)) (id_value username : pyval) (user_id : Z)
  (g : globals) :
  lambda_obtains rt env query_params token_data (PDict d) ->
  lookup "id" d = Some id_value ->
  int rt id_value = Ret user_id ->
  lookup "username" d = Some username ->
  Lambda.handle_callback rt env query_params g
  = (Ret (Lambda.html_response
            (SuccessPage user_id
               (display_name rt username (lookup "discriminator" d))) 200),
     snd (Lambda.save_user_to_pool env user_id username
            (lookup_default "discriminator" d (PStr "0"))
            (lookup_default "avatar" d PNone) g)).
Proof.
  intros Hob Hid Hint Hname. rewrite (lambda_after_profile _ _ _ _ _ _ Hob).
  unfold and_then, lift, ret, bind, getitem, get, lookup_default, display_name,
    Lambda.render_success.
  rewrite Hid, Hint, Hname.
  destruct (lookup "discriminator" d) as [x|]; destruct (lookup "avatar" d);
    match goal with
    | |- context [Lambda.save_user_to_pool ?e ?i ?u ?a ?b ?g] =>
        destruct (lambda_save_returns e i u a b g) as [flag Hflag];
        destruct (Lambda.save_user_to_pool e i u a b g) as [[r|ex] g'];
        cbn [fst snd] in *; try discriminate
    end;
    try (destruct (ne_str x "0")); reflexivity.
Qed.

(** ** Parameter parsing *)

(** C8.  A callback whose query string has neither [code] nor [error] gets
    the error page with code NO_CODE, in both deployments; the globals are
    left as they were. *)
Theorem callback_without_code_or_error :
  forall (rt : Runtime) (env : Env) (g : globals),
    (forall req : Service.request,
        lookup "code" (Service.query req) = None ->
        lookup "error" (Service.query req) = None ->
        Service.handle_callback rt env req g
        = (Ret (Service.render_error rt env "NO_CODE"
                  "No authorization code received."), g)
        /\ shows_error (Service.handle_callback rt env req g) "NO_CODE")
    /\ (forall query_params : list (string * list string),
           lookup "code" query_params = None ->
           lookup "error" query_params = None ->
           Lambda.handle_callback rt env query_params g
           = (Ret (Lambda.html_response
                     (Lambda.render_error rt env "NO_CODE"
                        "No authorization code received.") 200), g)
           /\ shows_error (Lambda.handle_callback rt env query_params g)
                "NO_CODE").
Proof.
  intros rt env g. split.
  - intros req Hcode Herror.
    assert (H : Service.handle_callback rt env req g
                = (Ret (Service.render_error rt env "NO_CODE"
                          "No authorization code received."), g)).
    { unfold Service.handle_callback. rewrite Hcode, Herror. reflexivity. }
    split; [exact H|]. rewrite H. eexists. split; reflexivity.
  - intros qp Hcode Herror.
    assert (H : Lambda.handle_callback rt env qp g
                = (Ret (Lambda.html_response
                          (Lambda.render_error rt env "NO_CODE"
                             "No authorization code received.") 200), g)).
    { unfold Lambda.handle_callback, Lambda.first_of.
      rewrite Hcode, Herror. reflexivity. }
    split; [exact H|]. rewrite H. eexists. split; reflexivity.
Qed.

Lemma callback_without_code_or_error_witness :
  shows_error
    (Service.handle_callback (ascii_runtime (fun _ => 65535))
       (provider bearer_token PNone) (service_request [("state", "xyz")])
       connected)
    "NO_CODE".
Proof.
  apply (proj1 (callback_without_code_or_error (ascii_runtime (fun _ => 65535))
                  (provider bearer_token PNone) connected)
           (service_request [("state", "xyz")]));
    reflexivity.
Defined.

Lemma nonempty_values (key : string) (query_params : list (string * list string))
  (l : list string) :
  Forall (fun kv => snd kv <> []) query_params ->
  lookup key query_params = Some l -> l <> [].
Proof.
  induction 1 as [|[k v] rest Hv _ IH]; cbn [lookup]; [discriminate|].
  destruct (String.eqb k key); [|exact IH].
  intros [= <-]. exact Hv.
Qed.

(** A list-valued parameter without empty lists is read without an error. *)
Lemma first_of_nonempty (key : string)
  (query_params : list (string * list string)) (default : option string) :
  Forall (fun kv => snd kv <> []) query_params ->
  exists o : option string,
    Lambda.first_of key query_params default = Ret o
    /\ (lookup key query_params = None -> o = default).
Proof.
  intros Hall. unfold Lambda.first_of.
  destruct (lookup key query_params) as [[|v l]|] eqn:Hk.
  - exfalso. exact (nonempty_values _ _ _ Hall Hk eq_refl).
  - eexists. split; [reflexivity|discriminate].
  - eexists. split; reflexivity.
Qed.

(** C5, as amended.  A callback whose query string has a non-empty [error]
    gets the error page whose code is the uppercased value, whether a [code]
    is there or not.  (An empty [error] is read as none.)  For
    [lambda_oauth.py] the parameter lists are non-empty, as [lambda_handler]
    builds them. *)
Theorem callback_with_error_parameter :
  forall (rt : Runtime) (env : Env) (g : globals) (e : string),
    e <> "" ->
    (forall req : Service.request,
        lookup "error" (Service.query req) = Some e ->
        Service.handle_callback rt env req g
        = (Ret (Service.render_error rt env (str_upper rt e)
                  (get_default "error_description" (Service.query req)
                     "Authorization was denied.")), g)
        /\ shows_error (Service.handle_callback rt env req g) (str_upper rt e))
    /\ (forall (query_params : list (string * list string)) (more : list string),
           Forall (fun kv => snd kv <> []) query_params ->
           lookup "error" query_params = Some (e :: more) ->
           shows_error (Lambda.handle_callback rt env query_params g)
             (str_upper rt e)
           /\ snd (Lambda.handle_callback rt env query_params g) = g).
Proof.
  intros rt env g e He. split.
  - intros req Herror.
    assert (H : Service.handle_callback rt env req g
                = (Ret (Service.render_error rt env (str_upper rt e)
                          (get_default "error_description" (Service.query req)
                             "Authorization was denied.")), g)).
    { unfold Service.handle_callback.
      rewrite Herror, (truthy_str_some e He). reflexivity. }
    split; [exact H|]. rewrite H. eexists. split; reflexivity.
  - intros qp more Hall Herror.
    destruct (first_of_nonempty "code" qp None Hall) as [code [Hcode _]].
    destruct (first_of_nonempty "error_description" qp
                (Some "Authorization was denied.") Hall) as [desc [Hdesc _]].
    assert (Herr : Lambda.first_of "error" qp None = Ret (Some e))
      by (unfold Lambda.first_of; rewrite Herror; reflexivity).
    unfold Lambda.handle_callback, and_then, lift, ret.
    rewrite Hcode, Herr, (truthy_str_some e He), Hdesc. cbn [fst snd unwrap].
    split; [|reflexivity]. eexists. split; reflexivity.
Qed.

Lemma callback_with_error_parameter_witness :
  shows_error
    (Service.handle_callback (ascii_runtime (fun _ => 65535))
       (provider bearer_token PNone)
       (service_request [("error", "access_denied"); ("code", "abc")])
       connected)
    "ACCESS_DENIED".
Proof.
  apply (proj1 (callback_with_error_parameter (ascii_runtime (fun _ => 65535))
                  (provider bearer_token PNone) connected "access_denied"
                  ltac:(discriminate))
           (service_request [("error", "access_denied"); ("code", "abc")])
           eq_refl).
Defined.

(** C5, as stated, fails: an [error] parameter with an empty value is not
    reported; with no [code] the page shows NO_CODE, not the (empty)
    uppercased value. *)
Lemma empty_error_parameter_is_not_reported :
  ~ (forall (rt : Runtime) (env : Env) (req : Service.request) (g : globals)
            (e : string),
        lookup "error" (Service.query req) = Some e ->
        shows_error (Service.handle_callback rt env req g) (str_upper rt e)).
Proof.
  intros H.
  destruct (H (ascii_runtime (fun _ => 65535)) (provider bearer_token PNone)
              (service_request [("error", "")]) connected "" eq_refl)
    as [r [Hr Hcode]].
  vm_compute in Hr. injection Hr as <-. vm_compute in Hcode. discriminate Hcode.
Qed.

(** ** The token *)

(** C7, as amended.  When the exchange succeeds and the token payload is a
    JSON object that has no [access_token] field, the callback gets the
    error page with code NO_TOKEN, in both deployments; nothing is fetched
    or stored. *)
Theorem callback_without_access_token :
  forall (rt : Runtime) (env : Env) (g : globals) (d : list (string * pyval)),
    lookup "access_token" d = None ->
    (forall req : Service.request,
        service_exchanges rt env req (PDict d) ->
        Service.handle_callback rt env req g
        = (Ret (Service.render_error rt env "NO_TOKEN"
                  "No access token in response."), g)
        /\ shows_error (Service.handle_callback rt env req g) "NO_TOKEN")
    /\ (forall query_params : list (string * list string),
           lambda_exchanges rt env query_params (PDict d) ->
           Lambda.handle_callback rt env query_params g
           = (Ret (Lambda.html_response
                     (Lambda.render_error rt env "NO_TOKEN"
                        "No access token in response.") 200), g)
           /\ shows_error (Lambda.handle_callback rt env query_params g)
                "NO_TOKEN").
Proof.
  intros rt env g d Hd. split.
  - intros req [code e1 Herror Hcode Hne Hex He1].
    assert (H : Service.handle_callback rt env req g
                = (Ret (Service.render_error rt env "NO_TOKEN"
                          "No access token in response."), g)).
    { unfold Service.handle_callback.
      rewrite Herror, Hcode, (truthy_str_some code Hne). cbn [negb unwrap].
      rewrite Hex, He1. unfold and_then, lift, get. rewrite Hd. reflexivity. }
    split; [exact H|]. rewrite H. eexists. split; reflexivity.
  - intros qp [code error e1 Hcode Herror Hfalsy Hne Hex He1 _].
    assert (H : Lambda.handle_callback rt env qp g
                = (Ret (Lambda.html_response
                          (Lambda.render_error rt env "NO_TOKEN"
                             "No access token in response.") 200), g)).
    { unfold Lambda.handle_callback, and_then, lift, get.
      rewrite Hcode, Herror, Hfalsy, (truthy_str_some code Hne).
      cbn [negb unwrap]. rewrite Hex, He1, Hd. reflexivity. }
    split; [exact H|]. rewrite H. eexists. split; reflexivity.
Qed.

Lemma callback_without_access_token_witness :
  shows_error
    (Service.handle_callback (ascii_runtime (fun _ => 65535))
       (provider (PDict [("token_type", PStr "Bearer")]) PNone)
       (service_request [("code", "abc")]) connected)
    "NO_TOKEN".
Proof.
  apply (proj1 (callback_without_access_token (ascii_runtime (fun _ => 65535))
                  (provider (PDict [("token_type", PStr "Bearer")]) PNone)
                  connected [("token_type", PStr "Bearer")] eq_refl)
           (service_request [("code", "abc")])).
  apply (ServiceExchanges _ _ _ _ "abc" None);
    [reflexivity | reflexivity | discriminate | reflexivity | reflexivity].
Defined.

(** C7, as stated, fails: the token endpoint answers 200 with the JSON
    array [[]], which has no access-token field, and [service.py] shows no
    NO_TOKEN page (it raises AttributeError). *)
Lemma array_payload_is_not_no_token :
  ~ (forall (rt : Runtime) (env : Env) (req : Service.request) (g : globals)
            (token_data : pyval),
        service_exchanges rt env req token_data ->
        lacks_access_token token_data ->
        shows_error (Service.handle_callback rt env req g) "NO_TOKEN").
Proof.
  intros H.
  assert (Hexchanged :
            service_exchanges (ascii_runtime (fun _ => 65535))
              (provider (PList []) PNone) (service_request [("code", "abc")])
              (PList [])).
  { apply (ServiceExchanges _ _ _ _ "abc" None);
      [reflexivity | reflexivity | discriminate | reflexivity | reflexivity]. }
  destruct (H (ascii_runtime (fun _ => 65535)) (provider (PList []) PNone)
              (service_request [("code", "abc")]) connected (PList [])
              Hexchanged I)
    as [r [Hr _]].
  vm_compute in Hr. discriminate Hr.
Qed.

(** A 200 answer whose JSON is not an object has no [get]: [service.py]
    raises on it, and [lambda_oauth.py] does too unless the payload is
    [None], which it reports as a failed exchange. *)
Lemma payload_without_get_raises (rt : Runtime) (env : Env)
  (req : Service.request) (g : globals) (l : list pyval) :
  service_exchanges rt env req (PList l) ->
  Service.handle_callback rt env req g = (Raise AttributeError, g).
Proof.
  intros [code e1 Herror Hcode Hne Hex He1].
  unfold Service.handle_callback.
  rewrite Herror, Hcode, (truthy_str_some code Hne). cbn [negb unwrap].
  rewrite Hex, He1. reflexivity.
Qed.

(** ** The success page *)

Lemma display_name_suffix (rt : Runtime) (username x : pyval) :
  x <> PStr "0" ->
  display_name rt username (Some x) = str rt username ++ "#" ++ str rt x.
Proof.
  intros Hx. unfold display_name, ne_str.
  destruct x as [| | | |s| |]; try reflexivity.
  destruct (String.eqb_spec s "0") as [->|_]; [contradiction|reflexivity].
Qed.

Lemma display_name_plain (rt : Runtime) (username : pyval)
  (discriminator : option pyval) :
  discriminator = None \/ discriminator = Some (PStr "0") ->
  display_name rt username discriminator = str rt username.
Proof. intros [->| ->]; reflexivity. Qed.

(** C6.  In a flow that succeeds, the page shows the username followed by
    [#] and the discriminator when the profile has a discriminator other than
    the string "0", and the username alone when the discriminator is absent
    or is "0"; in both deployments. *)
Theorem displayed_name_follows_discriminator :
  forall (rt : Runtime) (env : Env) (g : globals) (token_data : pyval)
         (d : list (string * pyval)) (id_value username : pyval) (user_id : Z),
    lookup "id" d = Some id_value ->
    int rt id_value = Ret user_id ->
    lookup "username" d = Some username ->
    (forall req : Service.request,
        service_obtains rt env req token_data (PDict d) ->
        (forall x : pyval,
            lookup "discriminator" d = Some x -> x <> PStr "0" ->
            shows_success (Service.handle_callback rt env req g) user_id
              (str rt username ++ "#" ++ str rt x))
        /\ (lookup "discriminator" d = None
            \/ lookup "discriminator" d = Some (PStr "0") ->
            shows_success (Service.handle_callback rt env req g) user_id
              (str rt username)))
    /\ (forall query_params : list (string * list string),
           lambda_obtains rt env query_params token_data (PDict d) ->
           (forall x : pyval,
               lookup "discriminator" d = Some x -> x <> PStr "0" ->
               shows_success (Lambda.handle_callback rt env query_params g)
                 user_id (str rt username ++ "#" ++ str rt x))
           /\ (lookup "discriminator" d = None
               \/ lookup "discriminator" d = Some (PStr "0") ->
               shows_success (Lambda.handle_callback rt env query_params g)
                 user_id (str rt username))).
Proof.
  intros rt env g token_data d id_value username user_id Hid Hint Hname.
  split.
  - intros req Hob.
    rewrite (service_callback_success _ _ _ _ _ _ _ _ g Hob Hid Hint Hname).
    split.
    + intros x Hx Hne. rewrite Hx, (display_name_suffix _ _ _ Hne).
      eexists. split; reflexivity.
    + intros Hd. rewrite (display_name_plain _ _ _ Hd).
      eexists. split; reflexivity.
  - intros qp Hob.
    rewrite (lambda_callback_success _ _ _ _ _ _ _ _ g Hob Hid Hint Hname).
    split.
    + intros x Hx Hne. rewrite Hx, (display_name_suffix _ _ _ Hne).
      eexists. split; reflexivity.
    + intros Hd. rewrite (display_name_plain _ _ _ Hd).
      eexists. split; reflexivity.
Qed.

(** A provider that hands out a token and this profile lets a request with a
    [code] through to the profile. *)
Lemma provider_obtains (hash : string -> Z) (profile : pyval) :
  service_obtains (ascii_runtime hash) (provider bearer_token profile)
    (service_request [("code", "abc")]) bearer_token profile.
Proof.
  apply (ServiceObtains _ _ _ _ _ (PStr "tok") None);
    [ apply (ServiceExchanges _ _ _ _ "abc" None);
      [reflexivity | reflexivity | discriminate | reflexivity | reflexivity]
    | reflexivity | reflexivity | reflexivity | reflexivity ].
Defined.

Lemma provider_obtains_lambda (hash : string -> Z) (d : list (string * pyval)) :
  lambda_obtains (ascii_runtime hash) (provider bearer_token (PDict d))
    [("code", ["abc"])] bearer_token (PDict d).
Proof.
  apply (LambdaObtains _ _ _ _ _ (PStr "tok") None);
    [ apply (LambdaExchanges _ _ _ _ "abc" None None);
      [ reflexivity | reflexivity | reflexivity | discriminate | reflexivity
      | reflexivity | discriminate ]
    | reflexivity | reflexivity | reflexivity | reflexivity | discriminate ].
Defined.

Lemma displayed_name_follows_discriminator_witness :
  shows_success
    (Service.handle_callback (ascii_runtime (fun _ => 65535))
       (provider bearer_token
          (PDict [("id", PStr "123"); ("username", PStr "alice");
                  ("discriminator", PStr "4242")]))
       (service_request [("code", "abc")]) connected)
    123 "alice#4242".
Proof.
  apply (proj1 (proj1 (displayed_name_follows_discriminator
                         (ascii_runtime (fun _ => 65535))
                         (provider bearer_token
                            (PDict [("id", PStr "123");
                                    ("username", PStr "alice");
                                    ("discriminator", PStr "4242")]))
                         connected bearer_token
                         [("id", PStr "123"); ("username", PStr "alice");
                          ("discriminator", PStr "4242")]
                         (PStr "123") (PStr "alice") 123
                         eq_refl eq_refl eq_refl)
                  (service_request [("code", "abc")])
                  (provider_obtains _ _))
           (PStr "4242") eq_refl).
  discriminate.
Defined.

(** ** Store failures *)

Lemma service_save_returns (env : Env) (user_id : Z) (u ds av : pyval)
  (g : globals) :
  exists b : bool,
    fst (Service.save_user_to_pool env user_id u ds av g) = Ret b.
Proof.
  destruct (service_save_users env user_id u ds av g) as [[H _]|[H _]]; eauto.
Qed.

(** The answer of the callback is the same whatever the store does and
    whatever the globals hold. *)
Lemma service_answer_ignores_store (rt : Runtime) (env : Env)
  (req : Service.request) (g g' : globals) (client store : bool) :
  fst (Service.handle_callback rt (with_store_faults env client store) req g')
  = fst (Service.handle_callback rt env req g).
Proof.
  unfold Service.handle_callback.
  change (Service.exchange_code rt (with_store_faults env client store))
    with (Service.exchange_code rt env).
  change (Service.get_user_info rt (with_store_faults env client store))
    with (Service.get_user_info rt env).
  change (Service.render_error rt (with_store_faults env client store))
    with (Service.render_error rt env).
  destruct (truthy_str (lookup "error" (Service.query req))); [reflexivity|].
  destruct (negb (truthy_str (lookup "code" (Service.query req))));
    [reflexivity|].
  destruct (Service.exchange_code rt env _) as [token_data e1].
  destruct (truthy_str e1); [reflexivity|].
  unfold and_then, lift, ret.
  destruct (get token_data "access_token" PNone) as [access_token|];
    [|reflexivity].
  destruct (negb (truthy access_token)); [reflexivity|].
  destruct (Service.get_user_info rt env access_token) as [user_data e2].
  destruct (truthy_str e2); [reflexivity|].
  destruct (bind (getitem user_data "id") (int rt)) as [user_id|];
    [|reflexivity].
  destruct (getitem user_data "username") as [username|]; [|reflexivity].
  destruct (get user_data "discriminator" (PStr "0")) as [ds|]; [|reflexivity].
  destruct (get user_data "avatar" PNone) as [av|]; [|reflexivity].
  destruct (service_save_returns (with_store_faults env client store) user_id
              username ds av g') as [b1 H1].
  destruct (service_save_returns env user_id username ds av g) as [b2 H2].
  destruct (Service.save_user_to_pool (with_store_faults env client store) _ _ _ _ _)
    as [[?|?] ?]; [|discriminate H1].
  destruct (Service.save_user_to_pool env _ _ _ _ _) as [[?|?] ?];
    [|discriminate H2].
  reflexivity.
Qed.

Lemma lambda_answer_ignores_store (rt : Runtime) (env : Env)
  (query_params : list (string * list string)) (g g' : globals)
  (client store : bool) :
  fst (Lambda.handle_callback rt (with_store_faults env client store)
         query_params g')
  = fst (Lambda.handle_callback rt env query_params g).
Proof.
  unfold Lambda.handle_callback.
  change (Lambda.exchange_code rt (with_store_faults env client store))
    with (Lambda.exchange_code rt env).
  change (Lambda.get_user_info rt (with_store_faults env client store))
    with (Lambda.get_user_info rt env).
  change (Lambda.render_error rt (with_store_faults env client store))
    with (Lambda.render_error rt env).
  unfold and_then, lift, ret.
  destruct (Lambda.first_of "code" query_params None) as [code|];
    [|reflexivity].
  destruct (Lambda.first_of "error" query_params None) as [error|];
    [|reflexivity].
  destruct (truthy_str error).
  { destruct (Lambda.first_of "error_description" query_params _);
      reflexivity. }
  destruct (negb (truthy_str code)); [reflexivity|].
  destruct (Lambda.exchange_code rt env (unwrap code)) as [[token_data e1]|];
    [|reflexivity].
  destruct (truthy_str e1 || match token_data with PNone => true | _ => false end);
    [reflexivity|].
  destruct (get token_data "access_token" PNone) as [access_token|];
    [|reflexivity].
  destruct (negb (truthy access_token)); [reflexivity|].
  destruct (Lambda.get_user_info rt env access_token) as [[user_data e2]|];
    [|reflexivity].
  destruct (truthy_str e2 || match user_data with PNone => true | _ => false end);
    [reflexivity|].
  destruct (bind (getitem user_data "id") (int rt)) as [user_id|];
    [|reflexivity].
  destruct (getitem user_data "username") as [username|]; [|reflexivity].
  destruct (get user_data "discriminator" (PStr "0")) as [ds|]; [|reflexivity].
  destruct (get user_data "avatar" PNone) as [av|]; [|reflexivity].
  destruct (lambda_save_returns (with_store_faults env client store) user_id
              username ds av g') as [b1 H1].
  destruct (lambda_save_returns env user_id username ds av g) as [b2 H2].
  destruct (Lambda.save_user_to_pool (with_store_faults env client store) _ _ _ _ _)
    as [[?|?] ?]; [|discriminate H1].
  destruct (Lambda.save_user_to_pool env _ _ _ _ _) as [[?|?] ?];
    [|discriminate H2].
  reflexivity.
Qed.

Lemma service_obtains_faults (rt : Runtime) (env : Env) (req : Service.request)
  (token_data user_data : pyval) (client store : bool) :
  service_obtains rt env req token_data user_data ->
  service_obtains rt (with_store_faults env client store) req token_data
    user_data.
Proof.
  intros [access_token e2 [code e1 Herror Hcode Hne Hex He1] Htok Htru Hfetch He2].
  apply (ServiceObtains _ _ _ _ _ access_token e2);
    [apply (ServiceExchanges _ _ _ _ code e1)|..]; assumption.
Qed.

Lemma lambda_obtains_faults (rt : Runtime) (env : Env)
  (query_params : list (string * list string)) (token_data user_data : pyval)
  (client store : bool) :
  lambda_obtains rt env query_params token_data user_data ->
  lambda_obtains rt (with_store_faults env client store) query_params
    token_data user_data.
Proof.
  intros [access_token e2 [code error e1 Hcode Herror Hfalsy Hne Hex He1 Hpay]
            Htok Htru Hfetch He2 Hprof].
  apply (LambdaObtains _ _ _ _ _ access_token e2);
    [apply (LambdaExchanges _ _ _ _ code error e1)|..]; assumption.
Qed.

(** C4, as amended.  The answer of the callback never depends on the store:
    with any store fault and any globals it is the answer of the fault-free
    run.  So when parameter parsing, exchange and profile fetch succeed and
    the profile has an id that [int] reads and a username, the success page
    is rendered also when the handle is unset, the connection fails or the
    write raises; in those cases the collection is left as it was. *)
Theorem store_failure_is_not_fatal :
  forall (rt : Runtime) (env : Env) (g : globals) (client store : bool),
    (forall (req : Service.request) (g0 : globals),
        fst (Service.handle_callback rt (with_store_faults env client store)
               req g)
        = fst (Service.handle_callback rt env req g0))
    /\ (forall (query_params : list (string * list string)) (g0 : globals),
           fst (Lambda.handle_callback rt (with_store_faults env client store)
                  query_params g)
           = fst (Lambda.handle_callback rt env query_params g0))
    /\ (forall (token_data : pyval) (d : list (string * pyval))
               (id_value username : pyval) (user_id : Z),
           lookup "id" d = Some id_value ->
           int rt id_value = Ret user_id ->
           lookup "username" d = Some username ->
           (forall req : Service.request,
               service_obtains rt env req token_data (PDict d) ->
               shows_success
                 (Service.handle_callback rt
                    (with_store_faults env client store) req g)
                 user_id (display_name rt username (lookup "discriminator" d))
               /\ (db g = false \/ store = true ->
                   snd (Service.handle_callback rt
                          (with_store_faults env client store) req g) = g))
           /\ (forall query_params : list (string * list string),
                  lambda_obtains rt env query_params token_data (PDict d) ->
                  shows_success
                    (Lambda.handle_callback rt
                       (with_store_faults env client store) query_params g)
                    user_id
                    (display_name rt username (lookup "discriminator" d))
                  /\ (mongo_client g = false /\ client = true \/ store = true ->
                      oauth_users
                        (snd (Lambda.handle_callback rt
                                (with_store_faults env client store)
                                query_params g))
                      = oauth_users g))).
Proof.
  intros rt env g client store. split; [|split].
  - intros req g0. apply service_answer_ignores_store.
  - intros qp g0. apply lambda_answer_ignores_store.
  - intros token_data d id_value username user_id Hid Hint Hname. split.
    + intros req Hob.
      apply (service_obtains_faults _ _ _ _ _ client store) in Hob.
      rewrite (service_callback_success _ _ _ _ _ _ _ _ g Hob Hid Hint Hname).
      split; [eexists; split; reflexivity|].
      intros Hfail. cbn [snd]. unfold Service.save_user_to_pool.
      destruct (db g); cbn [negb]; [|reflexivity].
      destruct Hfail as [Hdb| ->]; [discriminate Hdb|reflexivity].
    + intros qp Hob.
      apply (lambda_obtains_faults _ _ _ _ _ client store) in Hob.
      rewrite (lambda_callback_success _ _ _ _ _ _ _ _ g Hob Hid Hint Hname).
      split; [eexists; split; reflexivity|].
      intros Hfail. cbn [snd].
      unfold Lambda.save_user_to_pool, Lambda.get_db.
      destruct Hfail as [[-> ->]| ->]; [reflexivity|].
      destruct (mongo_client g); cbn [negb].
      * destruct (db g); reflexivity.
      * destruct client; reflexivity.
Qed.

Lemma store_failure_is_not_fatal_witness :
  shows_success
    (Service.handle_callback (ascii_runtime (fun _ => 65535))
       (with_store_faults
          (provider bearer_token
             (PDict [("id", PStr "123"); ("username", PStr "alice");
                     ("discriminator", PStr "0")]))
          true true)
       (service_request [("code", "abc")]) disconnected)
    123 "alice".
Proof.
  apply (proj1 (proj1 (proj2 (proj2 (store_failure_is_not_fatal
                                       (ascii_runtime (fun _ => 65535))
                                       (provider bearer_token
                                          (PDict [("id", PStr "123");
                                                  ("username", PStr "alice");
                                                  ("discriminator", PStr "0")]))
                                       disconnected true true))
                        bearer_token
                        [("id", PStr "123"); ("username", PStr "alice");
                         ("discriminator", PStr "0")]
                        (PStr "123") (PStr "alice") 123
                        eq_refl eq_refl eq_refl)
                  (service_request [("code", "abc")])
                  (provider_obtains _ _))).
Defined.

(** C4, as stated, fails: parsing, exchange and fetch succeed and the store
    works, but the profile has no username, and the callback returns no
    success page (it raises). *)
Lemma fetched_profile_may_not_render :
  ~ (forall (rt : Runtime) (env : Env) (req : Service.request) (g : globals)
            (token_data user_data : pyval),
        service_obtains rt env req token_data user_data ->
        exists (user_id : Z) (shown : string),
          shows_success (Service.handle_callback rt env req g) user_id shown).
Proof.
  intros H.
  destruct (H (ascii_runtime (fun _ => 65535))
              (provider bearer_token (PDict [("id", PStr "123")]))
              (service_request [("code", "abc")]) connected bearer_token
              (PDict [("id", PStr "123")]) (provider_obtains _ _))
    as [user_id [shown [r [Hr _]]]].
  vm_compute in Hr. discriminate Hr.
Qed.

(** ** Profiles the handler cannot read *)

(** C10.  A profile the fetch accepted, whose [id] is a string that [int]
    rejects, makes the callback raise ValueError; one with a readable [id]
    and no [username] makes it raise KeyError.  No page is returned and the
    globals are left as they were; in both deployments. *)
Theorem unreadable_profile_raises :
  forall (rt : Runtime) (env : Env) (g : globals) (token_data : pyval)
         (d : list (string * pyval)),
    (forall s : string,
        lookup "id" d = Some (PStr s) ->
        int_of_str rt s = Raise ValueError ->
        (forall req : Service.request,
            service_obtains rt env req token_data (PDict d) ->
            Service.handle_callback rt env req g = (Raise ValueError, g))
        /\ (forall query_params : list (string * list string),
               lambda_obtains rt env query_params token_data (PDict d) ->
               Lambda.handle_callback rt env query_params g
               = (Raise ValueError, g)))
    /\ (forall (id_value : pyval) (user_id : Z),
           lookup "id" d = Some id_value ->
           int rt id_value = Ret user_id ->
           lookup "username" d = None ->
           (forall req : Service.request,
               service_obtains rt env req token_data (PDict d) ->
               Service.handle_callback rt env req g
               = (Raise (KeyError "username"), g))
           /\ (forall query_params : list (string * list string),
                  lambda_obtains rt env query_params token_data (PDict d) ->
                  Lambda.handle_callback rt env query_params g
                  = (Raise (KeyError "username"), g))).
Proof.
  intros rt env g token_data d. split.
  - intros s Hid Hint. split.
    + intros req Hob. rewrite (service_after_profile _ _ _ _ _ _ Hob).
      unfold and_then, lift, bind, getitem. rewrite Hid. cbn [int].
      rewrite Hint. reflexivity.
    + intros qp Hob. rewrite (lambda_after_profile _ _ _ _ _ _ Hob).
      unfold and_then, lift, bind, getitem. rewrite Hid. cbn [int].
      rewrite Hint. reflexivity.
  - intros id_value user_id Hid Hint Hname. split.
    + intros req Hob. rewrite (service_after_profile _ _ _ _ _ _ Hob).
      unfold and_then, lift, bind, getitem. rewrite Hid, Hint, Hname.
      reflexivity.
    + intros qp Hob. rewrite (lambda_after_profile _ _ _ _ _ _ Hob).
      unfold and_then, lift, bind, getitem. rewrite Hid, Hint, Hname.
      reflexivity.
Qed.

Lemma unreadable_profile_raises_witness :
  Service.handle_callback (ascii_runtime (fun _ => 65535))
    (provider bearer_token
       (PDict [("id", PStr "not-a-number"); ("username", PStr "alice")]))
    (service_request [("code", "abc")]) connected
  = (Raise ValueError, connected)
  /\ Lambda.handle_callback (ascii_runtime (fun _ => 65535))
       (provider bearer_token (PDict [("id", PStr "123")]))
       [("code", ["abc"])] connected
     = (Raise (KeyError "username"), connected).
Proof.
  split.
  - apply (proj1 (proj1 (unreadable_profile_raises
                           (ascii_runtime (fun _ => 65535))
                           (provider bearer_token
                              (PDict [("id", PStr "not-a-number");
                                      ("username", PStr "alice")]))
                           connected bearer_token
                           [("id", PStr "not-a-number");
                            ("username", PStr "alice")])
                    "not-a-number" eq_refl eq_refl)
             (service_request [("code", "abc")]) (provider_obtains _ _)).
  - apply (proj2 (proj2 (unreadable_profile_raises
                           (ascii_runtime (fun _ => 65535))
                           (provider bearer_token (PDict [("id", PStr "123")]))
                           connected bearer_token [("id", PStr "123")])
                    (PStr "123") 123 eq_refl eq_refl eq_refl)
             [("code", ["abc"])] (provider_obtains_lambda _ _)).
Defined.

(** ** The stored id *)

(** A success page comes from a profile whose id [int] reads and which has a
    username. *)
Lemma service_success_inv (rt : Runtime) (env : Env) (req : Service.request)
  (token_data user_data : pyval) (g : globals) (user_id : Z) (shown : string) :
  service_obtains rt env req token_data user_data ->
  shows_success (Service.handle_callback rt env req g) user_id shown ->
  exists (d : list (string * pyval)) (id_value username : pyval),
    user_data = PDict d
    /\ lookup "id" d = Some id_value
    /\ int rt id_value = Ret user_id
    /\ lookup "username" d = Some username.
Proof.
  intros Hob [r [Hr Hshown]]. rewrite (service_after_profile _ _ _ _ _ _ Hob) in Hr.
  unfold and_then, lift, ret, bind, getitem, get in Hr.
  destruct user_data as [| | | | | |d]; try discriminate Hr.
  destruct (lookup "id" d) as [id_value|] eqn:Hid; [|discriminate Hr].
  destruct (int rt id_value) as [n|] eqn:Hint; [|discriminate Hr].
  destruct (lookup "username" d) as [username|] eqn:Hname; [|discriminate Hr].
  exists d, id_value, username.
  assert (Hn : n = user_id).
  { destruct (lookup "discriminator" d); destruct (lookup "avatar" d);
      match type of Hr with
      | context [Service.save_user_to_pool ?e ?i ?u ?a ?b ?g] =>
          destruct (Service.save_user_to_pool e i u a b g) as [[?|?] ?]
      end;
      cbn [fst] in Hr; try discriminate Hr;
      injection Hr as <-; cbn in Hshown; congruence. }
  subst n. repeat split; assumption.
Qed.

Lemma lambda_success_inv (rt : Runtime) (env : Env)
  (query_params : list (string * list string)) (token_data user_data : pyval)
  (g : globals) (user_id : Z) (shown : string) :
  lambda_obtains rt env query_params token_data user_data ->
  shows_success (Lambda.handle_callback rt env query_params g) user_id shown ->
  exists (d : list (string * pyval)) (id_value username : pyval),
    user_data = PDict d
    /\ lookup "id" d = Some id_value
    /\ int rt id_value = Ret user_id
    /\ lookup "username" d = Some username.
Proof.
  intros Hob [r [Hr Hshown]]. rewrite (lambda_after_profile _ _ _ _ _ _ Hob) in Hr.
  unfold and_then, lift, ret, bind, getitem, get in Hr.
  destruct user_data as [| | | | | |d]; try discriminate Hr.
  destruct (lookup "id" d) as [id_value|] eqn:Hid; [|discriminate Hr].
  destruct (int rt id_value) as [n|] eqn:Hint; [|discriminate Hr].
  destruct (lookup "username" d) as [username|] eqn:Hname; [|discriminate Hr].
  exists d, id_value, username.
  assert (Hn : n = user_id).
  { destruct (lookup "discriminator" d); destruct (lookup "avatar" d);
      match type of Hr with
      | context [Lambda.save_user_to_pool ?e ?i ?u ?a ?b ?g] =>
          destruct (Lambda.save_user_to_pool e i u a b g) as [[?|?] ?]
      end;
      cbn [fst] in Hr; try discriminate Hr;
      injection Hr as <-; cbn in Hshown; congruence. }
  subst n. repeat split; assumption.
Qed.

(** After an upsert the first document with the id carries it as an
    integer. *)
Lemma find_after_update_one (user_id : Z) (u ds av : pyval) (t : Z)
  (c : Mongo.collection) :
  exists (doc : Mongo.document) (more : list Mongo.document),
    Mongo.find user_id
      (Mongo.update_one user_id (user_record user_id u ds av t) c)
    = doc :: more
    /\ lookup "_id" doc = Some (PInt user_id).
Proof.
  rewrite find_update_one_same.
  destruct (Mongo.find user_id c) as [|old more];
    eexists; eexists; (split; [reflexivity|]);
    rewrite lookup_apply_set; reflexivity.
Qed.

(** C1, as amended.  In a flow that ends in the success page, the id shown
    and stored is the integer [int] makes of the profile's [id]: an id that
    came as a JSON integer is kept as it is, one that came as a string is
    stored as the integer it denotes, not as the string.  When the store
    takes the write, the document found under that integer carries it as its
    [_id]. *)
Theorem stored_id_is_int_of_profile_id :
  forall (rt : Runtime) (env : Env) (g : globals) (token_data user_data : pyval)
         (user_id : Z) (shown : string),
    (forall req : Service.request,
        service_obtains rt env req token_data user_data ->
        shows_success (Service.handle_callback rt env req g) user_id shown ->
        exists id_value : pyval,
          getitem user_data "id" = Ret id_value
          /\ int rt id_value = Ret user_id
          /\ (forall n : Z, id_value = PInt n -> PInt user_id = id_value)
          /\ (forall s : string, id_value = PStr s -> PInt user_id <> id_value)
          /\ (db g = true -> store_raises env = false ->
              exists (doc : Mongo.document) (more : list Mongo.document),
                Mongo.find user_id
                  (oauth_users (snd (Service.handle_callback rt env req g)))
                = doc :: more
                /\ lookup "_id" doc = Some (PInt user_id)))
    /\ (forall query_params : list (string * list string),
           lambda_obtains rt env query_params token_data user_data ->
           shows_success (Lambda.handle_callback rt env query_params g)
             user_id shown ->
           exists id_value : pyval,
             getitem user_data "id" = Ret id_value
             /\ int rt id_value = Ret user_id
             /\ (forall n : Z, id_value = PInt n -> PInt user_id = id_value)
             /\ (forall s : string, id_value = PStr s -> PInt user_id <> id_value)
             /\ (mongo_client g = true /\ db g = true
                 \/ mongo_client g = false /\ client_raises env = false ->
                 store_raises env = false ->
                 exists (doc : Mongo.document) (more : list Mongo.document),
                   Mongo.find user_id
                     (oauth_users
                        (snd (Lambda.handle_callback rt env query_params g)))
                   = doc :: more
                   /\ lookup "_id" doc = Some (PInt user_id))).
Proof.
  intros rt env g token_data user_data user_id shown. split.
  - intros req Hob Hshown.
    destruct (service_success_inv _ _ _ _ _ _ _ _ Hob Hshown)
      as [d [id_value [username [-> [Hid [Hint Hname]]]]]].
    exists id_value. unfold getitem. rewrite Hid.
    split; [reflexivity|]. split; [exact Hint|].
    split; [intros n ->; cbn in Hint; congruence|].
    split; [intros s ->; discriminate|].
    intros Hdb Hstore.
    rewrite (service_callback_success _ _ _ _ _ _ _ _ g Hob Hid Hint Hname).
    cbn [snd]. unfold Service.save_user_to_pool. rewrite Hdb, Hstore.
    cbn [negb snd oauth_users]. apply find_after_update_one.
  - intros qp Hob Hshown.
    destruct (lambda_success_inv _ _ _ _ _ _ _ _ Hob Hshown)
      as [d [id_value [username [-> [Hid [Hint Hname]]]]]].
    exists id_value. unfold getitem. rewrite Hid.
    split; [reflexivity|]. split; [exact Hint|].
    split; [intros n ->; cbn in Hint; congruence|].
    split; [intros s ->; discriminate|].
    intros Hclient Hstore.
    rewrite (lambda_callback_success _ _ _ _ _ _ _ _ g Hob Hid Hint Hname).
    cbn [snd]. unfold Lambda.save_user_to_pool, Lambda.get_db.
    destruct Hclient as [[-> ->]|[-> ->]]; rewrite Hstore;
      cbn [negb snd oauth_users]; apply find_after_update_one.
Qed.

Lemma stored_id_is_int_of_profile_id_witness :
  exists id_value : pyval,
    getitem (PDict [("id", PStr "123"); ("username", PStr "alice");
                    ("discriminator", PStr "0")]) "id"
    = Ret id_value
    /\ int (ascii_runtime (fun _ => 65535)) id_value = Ret 123.
Proof.
  destruct (proj1 (stored_id_is_int_of_profile_id
                     (ascii_runtime (fun _ => 65535))
                     (provider bearer_token
                        (PDict [("id", PStr "123"); ("username", PStr "alice");
                                ("discriminator", PStr "0")]))
                     connected bearer_token
                     (PDict [("id", PStr "123"); ("username", PStr "alice");
                             ("discriminator", PStr "0")])
                     123 "alice")
             (service_request [("code", "abc")]) (provider_obtains _ _)
             (ex_intro _ _ (conj eq_refl eq_refl)))
    as [id_value [Hget [Hint _]]].
  exists id_value. split; assumption.
Defined.

(** C1, as stated, fails: the provider sends the id as the string "123", and
    the document the flow stores carries the integer 123 as its [_id]; no
    stored document carries the string. *)
Lemma string_id_is_not_stored_verbatim :
  ~ (forall (rt : Runtime) (env : Env) (req : Service.request) (g : globals)
            (token_data : pyval) (d : list (string * pyval))
            (id_value : pyval) (user_id : Z) (shown : string),
        service_obtains rt env req token_data (PDict d) ->
        lookup "id" d = Some id_value ->
        shows_success (Service.handle_callback rt env req g) user_id shown ->
        db g = true -> store_raises env = false ->
        exists doc : Mongo.document,
          In doc (oauth_users (snd (Service.handle_callback rt env req g)))
          /\ lookup "_id" doc = Some id_value).
Proof.
  intros H.
  destruct (H (ascii_runtime (fun _ => 65535))
              (provider bearer_token
                 (PDict [("id", PStr "123"); ("username", PStr "alice");
                         ("discriminator", PStr "0")]))
              (service_request [("code", "abc")]) connected bearer_token
              [("id", PStr "123"); ("username", PStr "alice");
               ("discriminator", PStr "0")]
              (PStr "123") 123 "alice"
              (provider_obtains _ _) eq_refl
              (ex_intro _ _ (conj eq_refl eq_refl)) eq_refl eq_refl)
    as [doc [Hin Hid]].
  vm_compute in Hin. destruct Hin as [<-|[]]. discriminate Hid.
Qed.

(** ** The health probe *)

(** C3, as amended.  In [service.py] the health probe answers 200 with the
    status "healthy", the timestamp and the store reported connected when the
    database handle is set, and 503 with "degraded" and "disconnected" when
    it is unset.  In [lambda_oauth.py] the probe answers 200 with a status,
    the timestamp and the service name whatever the handle is, and reports
    nothing about the store.  Neither changes the globals. *)
Theorem health_reports_store :
  forall (rt : Runtime) (cfg : Config) (env : Env) (g : globals),
    (forall req : Service.request,
        exists r : response,
          Service.handle_health cfg env req g = (Ret r, g)
          /\ json_field "timestamp" r = Some (PInt (time_time env))
          /\ (db g = true ->
              statusCode r = 200
              /\ json_field "status" r = Some (PStr "healthy")
              /\ json_field "mongodb" r = Some (PStr "connected"))
          /\ (db g = false ->
              statusCode r = 503
              /\ json_field "status" r = Some (PStr "degraded")
              /\ json_field "mongodb" r = Some (PStr "disconnected")))
    /\ (forall ev : Lambda.event,
           Lambda.path ev = Some "/health"
           \/ truthy_str (Lambda.path ev) = false
              /\ Lambda.rawPath ev = Some "/health" ->
           exists r : response,
             Lambda.lambda_handler rt env ev g = (Ret r, g)
             /\ statusCode r = 200
             /\ json_field "status" r = Some (PStr "ok")
             /\ json_field "timestamp" r = Some (PInt (time_time env))
             /\ json_field "service" r = Some (PStr "oauth-lambda")
             /\ json_field "mongodb" r = None).
Proof.
  intros rt cfg env g. split.
  - intros req. eexists. split; [reflexivity|]. split; [reflexivity|].
    split; intros ->; repeat split.
  - intros ev Hpath.
    assert (Hroute :
              (if truthy_str (Lambda.path ev) then unwrap (Lambda.path ev)
               else match Lambda.rawPath ev with Some p => p | None => "/" end)
              = "/health").
    { destruct Hpath as [-> | [-> ->]]; reflexivity. }
    unfold Lambda.lambda_handler. rewrite Hroute. cbn [String.eqb Ascii.eqb].
    eexists. split; [reflexivity|]. repeat split.
Qed.

Lemma health_reports_store_witness :
  exists r : response,
    Lambda.lambda_handler (ascii_runtime (fun _ => 65535))
      (provider bearer_token PNone) health_event disconnected
    = (Ret r, disconnected)
    /\ statusCode r = 200.
Proof.
  destruct (proj2 (health_reports_store (ascii_runtime (fun _ => 65535))
                     {| PORT := 8443; UVLOOP_ENABLED := false |}
                     (provider bearer_token PNone) disconnected)
             health_event (or_introl eq_refl))
    as [r [Hr [Hstatus _]]].
  exists r. split; assumption.
Defined.

(** C3, as stated, fails: with the database handle unset, the probe of
    [lambda_oauth.py] does not answer 503. *)
Lemma lambda_health_is_200_without_store :
  ~ (forall (rt : Runtime) (env : Env) (ev : Lambda.event) (g : globals),
        Lambda.path ev = Some "/health" ->
        db g = false ->
        exists r : response,
          fst (Lambda.lambda_handler rt env ev g) = Ret r
          /\ statusCode r = 503).
Proof.
  intros H.
  destruct (H (ascii_runtime (fun _ => 65535)) (provider bearer_token PNone)
              health_event disconnected eq_refl eq_refl)
    as [r [Hr Hstatus]].
  vm_compute in Hr. injection Hr as <-. discriminate Hstatus.
Qed.

(** ** The pseudo-hex code *)

Lemma all_from_holds (fuel : nat) :
  forall (start : Z) (p : Z -> bool),
    all_from fuel start p = true ->
    forall z : Z, start <= z < start + Z.of_nat fuel -> p z = true.
Proof.
  induction fuel as [|fuel IH]; intros start p H z Hz.
  - simpl in Hz. lia.
  - cbn [all_from] in H. apply andb_true_iff in H as [Hstart Hrest].
    destruct (Z.eq_dec z start) as [->|Hne]; [exact Hstart|].
    apply (IH (start + 1) p Hrest). lia.
Qed.

(** Below 0xFFFF, [format(n, '04X')] is four uppercase digits that denote
    [n]: checked on each of the 65535 values. *)
Lemma format_04X_four_digits (n : Z) :
  0 <= n < 65535 -> four_hex_digits_of n (format_04X n) = true.
Proof.
  intros Hn.
  assert (Hall : all_from (Z.to_nat 65535) 0
                   (fun n => four_hex_digits_of n (format_04X n)) = true)
    by (vm_compute; reflexivity).
  apply (all_from_holds _ _ _ Hall). lia.
Qed.

Lemma four_hex_digits_value (n : Z) (s : string) :
  four_hex_digits_of n s = true -> hex_value s = Some n.
Proof.
  unfold four_hex_digits_of. intros H. apply andb_true_iff in H as [_ H].
  destruct (hex_value s) as [v|]; [|discriminate H].
  apply Z.eqb_eq in H. subst v. reflexivity.
Qed.

(** Below 0xFFFF different numbers are printed differently. *)
Lemma format_04X_injective (a b : Z) :
  0 <= a < 65535 -> 0 <= b < 65535 -> format_04X a = format_04X b -> a = b.
Proof.
  intros Ha Hb Heq.
  pose proof (four_hex_digits_value _ _ (format_04X_four_digits a Ha)) as Hva.
  pose proof (four_hex_digits_value _ _ (format_04X_four_digits b Hb)) as Hvb.
  rewrite Heq in Hva. congruence.
Qed.

(** C2, as amended.  The pseudo-hex code of an error page is the
    interpreter's hash of the error code string reduced modulo 0xFFFF (a
    number from 0 to 0xFFFE, not the low 16 bits), printed as exactly four
    uppercase hexadecimal digits.  It does not depend on the message, the
    time or the deployment; two runs show the same code for an error code
    exactly when the interpreter gives the string hashes that agree modulo
    0xFFFF in both (the hash is salted per process, so they need not). *)
Theorem error_hex_is_hash_modulo :
  forall (rt : Runtime) (env : Env) (error_code error_message : string),
    error_hex_of (Service.render_error rt env error_code error_message)
    = Some (format_04X (str_hash rt error_code mod 65535))
    /\ error_hex_of
         (Lambda.html_response
            (Lambda.render_error rt env error_code error_message) 200)
       = Some (format_04X (str_hash rt error_code mod 65535))
    /\ 0 <= str_hash rt error_code mod 65535 < 65535
    /\ four_hex_digits_of (str_hash rt error_code mod 65535)
         (format_04X (str_hash rt error_code mod 65535)) = true
    /\ (forall (rt' : Runtime) (env' : Env) (error_message' : string),
           (error_hex_of
              (Service.render_error rt' env' error_code error_message')
            = error_hex_of
                (Service.render_error rt env error_code error_message)
            <-> str_hash rt' error_code mod 65535
                = str_hash rt error_code mod 65535)
           /\ (error_hex_of
                 (Lambda.html_response
                    (Lambda.render_error rt' env' error_code error_message')
                    200)
               = error_hex_of
                   (Service.render_error rt env error_code error_message)
               <-> str_hash rt' error_code mod 65535
                   = str_hash rt error_code mod 65535)).
Proof.
  intros rt env error_code error_message.
  assert (Hrange : forall r : Runtime,
             0 <= str_hash r error_code mod 65535 < 65535)
    by (intros r; apply Z.mod_pos_bound; lia).
  split; [reflexivity|]. split; [reflexivity|]. split; [apply Hrange|].
  split; [apply format_04X_four_digits; apply Hrange|].
  intros rt' env' error_message'.
  assert (Hiff :
            Some (format_04X (str_hash rt' error_code mod 65535))
            = Some (format_04X (str_hash rt error_code mod 65535))
            <-> str_hash rt' error_code mod 65535
                = str_hash rt error_code mod 65535).
  { split.
    - intros [= H]. apply format_04X_injective; [apply Hrange..|exact H].
    - intros ->. reflexivity. }
  split; exact Hiff.
Qed.

Lemma error_hex_is_hash_modulo_witness :
  error_hex_of
    (Service.render_error (ascii_runtime (fun _ => 65536))
       (provider bearer_token PNone) "NO_CODE" "first run")
  = error_hex_of
      (Service.render_error (ascii_runtime (fun _ => 1))
         (provider bearer_token PNone) "NO_CODE" "second run").
Proof.
  refine (proj2 (proj1 (proj2 (proj2 (proj2 (proj2
            (error_hex_is_hash_modulo (ascii_runtime (fun _ => 1))
               (provider bearer_token PNone) "NO_CODE" "second run"))))
            (ascii_runtime (fun _ => 65536)) (provider bearer_token PNone)
            "first run")) _).
  reflexivity.
Defined.

(** C2, as stated, fails twice.  The code is no 16-bit mask: for a string
    whose hash is 65535 the page shows 0000, while the low 16 bits of the
    hash are FFFF.  And it is not the same across runs: two interpreters
    that hash the string NO_CODE to 65535 and to 1 show 0000 and 0001. *)
Lemma error_hex_is_not_a_stable_mask :
  ~ (forall (rt : Runtime) (env : Env) (error_code error_message : string),
        error_hex_of (Service.render_error rt env error_code error_message)
        = Some (format_04X (Z.land (str_hash rt error_code) 65535)))
  /\ ~ (forall (rt rt' : Runtime) (env : Env)
               (error_code error_message : string),
           error_hex_of (Service.render_error rt env error_code error_message)
           = error_hex_of
               (Service.render_error rt' env error_code error_message)).
Proof.
  split.
  - intros H.
    specialize (H (ascii_runtime (fun _ => 65535))
                  (provider bearer_token PNone)
                  "NO_CODE" "No authorization code received.").
    vm_compute in H. discriminate H.
  - intros H.
    specialize (H (ascii_runtime (fun _ => 65535)) (ascii_runtime (fun _ => 1))
                  (provider bearer_token PNone)
                  "NO_CODE" "No authorization code received.").
    vm_compute in H. discriminate H.
Qed.

(** * Further properties of the two files *)

(** ** Failures of the provider calls *)

(** [exchange_code] of [service.py] returns the decoded body of a 200 answer
    and no error, or no payload and a non-empty error text. *)
Lemma service_exchange_code_cases (rt : Runtime) (env : Env) (code : string) :
  match payload_of (post_token env code) with
  | Some v => Service.exchange_code rt env code = (v, None)
  | None =>
      exists text : string,
        Service.exchange_code rt env code = (PNone, Some text)
        /\ truthy_str (Some text) = true
  end.
Proof.
  unfold payload_of, Service.exchange_code.
  destruct (post_token env code) as [resp|e].
  - destruct (Z.eqb (status resp) 200); cbn [negb].
    + destruct (json resp); [reflexivity|].
      eexists. split; reflexivity.
    + eexists. split; reflexivity.
  - destruct (class e); eexists; split; reflexivity.
Qed.

Lemma service_get_user_info_cases (rt : Runtime) (env : Env)
  (access_token : pyval) :
  match payload_of (get_users_me env ("Bearer " ++ str rt access_token)) with
  | Some v => Service.get_user_info rt env access_token = (v, None)
  | None =>
      exists text : string,
        Service.get_user_info rt env access_token = (PNone, Some text)
        /\ truthy_str (Some text) = true
  end.
Proof.
  unfold payload_of, Service.get_user_info.
  destruct (get_users_me env _) as [resp|e].
  - destruct (Z.eqb (status resp) 200); cbn [negb].
    + destruct (json resp); [reflexivity|].
      eexists. split; reflexivity.
    + eexists. split; reflexivity.
  - destruct (class e); eexists; split; reflexivity.
Qed.

(** X1.  In [service.py], whenever the token endpoint does not answer 200
    with a decodable body (it times out, the connection fails, any other
    exception is raised, the status is not 200, the body is no JSON), the
    callback returns the error page with code TOKEN_ERROR; it does not raise
    and leaves the globals as they were. *)
Theorem service_exchange_failure_is_token_error :
  forall (rt : Runtime) (env : Env) (req : Service.request) (g : globals)
         (code : string),
    service_asks req code ->
    payload_of (post_token env code) = None ->
    shows_error (Service.handle_callback rt env req g) "TOKEN_ERROR"
    /\ snd (Service.handle_callback rt env req g) = g.
Proof.
  intros rt env req g code [Herror [Hcode Hne]] Hfail.
  pose proof (service_exchange_code_cases rt env code) as Hex.
  rewrite Hfail in Hex. destruct Hex as [text [Hex Htext]].
  unfold Service.handle_callback.
  rewrite Herror, Hcode, (truthy_str_some code Hne). cbn [negb unwrap].
  rewrite Hex, Htext. split; [|reflexivity].
  eexists. split; reflexivity.
Qed.

Lemma service_exchange_failure_is_token_error_witness :
  shows_error
    (Service.handle_callback (ascii_runtime (fun _ => 65535))
       (failing_token {| class := Timeout; message := "" |})
       (service_request [("code", "abc")]) connected)
    "TOKEN_ERROR".
Proof.
  refine (proj1 (service_exchange_failure_is_token_error
                   (ascii_runtime (fun _ => 65535))
                   (failing_token {| class := Timeout; message := "" |})
                   (service_request [("code", "abc")]) connected "abc" _ _)).
  - split; [reflexivity|split; [reflexivity|discriminate]].
  - reflexivity.
Defined.

(** X2.  In [service.py], once the token is there, whenever the profile
    endpoint does not answer 200 with a decodable body the callback returns
    the error page with code USER_ERROR; it does not raise, and nothing is
    stored. *)
Theorem service_fetch_failure_is_user_error :
  forall (rt : Runtime) (env : Env) (req : Service.request) (g : globals)
         (token_data access_token : pyval),
    service_exchanges rt env req token_data ->
    get token_data "access_token" PNone = Ret access_token ->
    truthy access_token = true ->
    payload_of (get_users_me env ("Bearer " ++ str rt access_token)) = None ->
    shows_error (Service.handle_callback rt env req g) "USER_ERROR"
    /\ snd (Service.handle_callback rt env req g) = g.
Proof.
  intros rt env req g token_data access_token
         [code e1 Herror Hcode Hne Hex He1] Htok Htru Hfail.
  pose proof (service_get_user_info_cases rt env access_token) as Hfetch.
  rewrite Hfail in Hfetch. destruct Hfetch as [text [Hfetch Htext]].
  unfold Service.handle_callback.
  rewrite Herror, Hcode, (truthy_str_some code Hne). cbn [negb unwrap].
  rewrite Hex, He1. unfold and_then, lift, ret. rewrite Htok, Htru.
  cbn [negb]. rewrite Hfetch, Htext. split; [|reflexivity].
  eexists. split; reflexivity.
Qed.

Lemma service_fetch_failure_is_user_error_witness :
  shows_error
    (Service.handle_callback (ascii_runtime (fun _ => 65535)) unauthorized
       (service_request [("code", "abc")]) connected)
    "USER_ERROR".
Proof.
  refine (proj1 (service_fetch_failure_is_user_error
                   (ascii_runtime (fun _ => 65535)) unauthorized
                   (service_request [("code", "abc")]) connected
                   bearer_token (PStr "tok") _ _ _ _)).
  - apply (ServiceExchanges _ _ _ _ "abc" None);
      [reflexivity | reflexivity | discriminate | reflexivity | reflexivity].
  - reflexivity.
  - reflexivity.
  - reflexivity.
Defined.

(** What the client functions of [lambda_oauth.py] do with an outcome: an
    exception no clause catches leaves the function; a 200 answer gives its
    body; anything else gives a non-empty error text. *)
Lemma lambda_exchange_code_cases (rt : Runtime) (env : Env) (code : string) :
  match uncaught_of (post_token env code) with
  | Some e => Lambda.exchange_code rt env code = Raise (OtherError (message e))
  | None =>
      match payload_of (post_token env code) with
      | Some v => Lambda.exchange_code rt env code = Ret (v, None)
      | None =>
          exists text : string,
            Lambda.exchange_code rt env code = Ret (PNone, Some text)
            /\ truthy_str (Some text) = true
      end
  end.
Proof.
  unfold uncaught_of, payload_of, Lambda.exchange_code, Lambda.classify.
  destruct (post_token env code) as [resp|e].
  - destruct (Z.eqb (status resp) 200); cbn [negb].
    + destruct (json resp) as [v|e]; [reflexivity|].
      destruct (class e); try reflexivity; eexists; split; reflexivity.
    + eexists. split; reflexivity.
  - destruct (class e); try reflexivity; eexists; split; reflexivity.
Qed.

Lemma lambda_get_user_info_cases (rt : Runtime) (env : Env)
  (access_token : pyval) :
  match uncaught_of (get_users_me env ("Bearer " ++ str rt access_token)) with
  | Some e =>
      Lambda.get_user_info rt env access_token = Raise (OtherError (message e))
  | None =>
      match payload_of (get_users_me env ("Bearer " ++ str rt access_token)) with
      | Some v => Lambda.get_user_info rt env access_token = Ret (v, None)
      | None =>
          exists text : string,
            Lambda.get_user_info rt env access_token = Ret (PNone, Some text)
            /\ truthy_str (Some text) = true
      end
  end.
Proof.
  unfold uncaught_of, payload_of, Lambda.get_user_info, Lambda.classify.
  destruct (get_users_me env _) as [resp|e].
  - destruct (Z.eqb (status resp) 200); cbn [negb].
    + destruct (json resp) as [v|e]; [reflexivity|].
      destruct (class e); try reflexivity; eexists; split; reflexivity.
    + eexists. split; reflexivity.
  - destruct (class e); try reflexivity; eexists; split; reflexivity.
Qed.

(** X3.  In [lambda_oauth.py] the exchange fails in two ways.  An exception
    that is neither a timeout nor a request exception is not caught: the
    callback raises it.  Every other failure, and a 200 answer whose body is
    [null], gives the error page with code TOKEN_ERROR.  The globals are left
    as they were in both cases. *)
Theorem lambda_exchange_failure :
  forall (rt : Runtime) (env : Env)
         (query_params : list (string * list string)) (g : globals)
         (code : string),
    lambda_asks query_params code ->
    (forall e : exn,
        uncaught_of (post_token env code) = Some e ->
        Lambda.handle_callback rt env query_params g
        = (Raise (OtherError (message e)), g))
    /\ (uncaught_of (post_token env code) = None ->
        payload_of (post_token env code) = None
        \/ payload_of (post_token env code) = Some PNone ->
        shows_error (Lambda.handle_callback rt env query_params g)
          "TOKEN_ERROR"
        /\ snd (Lambda.handle_callback rt env query_params g) = g).
Proof.
  intros rt env qp g code [Hcode [[error [Herror Hfalsy]] Hne]].
  pose proof (lambda_exchange_code_cases rt env code) as Hex.
  split.
  - intros e He. rewrite He in Hex.
    unfold Lambda.handle_callback, and_then, lift.
    rewrite Hcode, Herror, Hfalsy, (truthy_str_some code Hne).
    cbn [negb unwrap]. rewrite Hex. reflexivity.
  - intros Hnone Hfail. rewrite Hnone in Hex.
    unfold Lambda.handle_callback, and_then, lift, ret.
    rewrite Hcode, Herror, Hfalsy, (truthy_str_some code Hne).
    cbn [negb unwrap].
    destruct Hfail as [Hfail|Hfail]; rewrite Hfail in Hex.
    + destruct Hex as [text [Hex Htext]]. rewrite Hex, Htext.
      split; [|reflexivity]. eexists. split; reflexivity.
    + rewrite Hex. split; [|reflexivity]. eexists. split; reflexivity.
Qed.

Lemma lambda_exchange_failure_witness :
  Lambda.handle_callback (ascii_runtime (fun _ => 65535))
    (failing_token {| class := Unexpected; message := "boom" |})
    [("code", ["abc"])] connected
  = (Raise (OtherError "boom"), connected)
  /\ shows_error
       (Lambda.handle_callback (ascii_runtime (fun _ => 65535))
          (provider PNone PNone) [("code", ["abc"])] connected)
       "TOKEN_ERROR".
Proof.
  split.
  - refine (proj1 (lambda_exchange_failure (ascii_runtime (fun _ => 65535))
                     (failing_token {| class := Unexpected; message := "boom" |})
                     [("code", ["abc"])] connected "abc" _)
              {| class := Unexpected; message := "boom" |} _).
    + split; [reflexivity|split; [|discriminate]].
      exists None. split; reflexivity.
    + reflexivity.
  - refine (proj1 (proj2 (lambda_exchange_failure
                            (ascii_runtime (fun _ => 65535))
                            (provider PNone PNone)
                            [("code", ["abc"])] connected "abc" _) _ _)).
    + split; [reflexivity|split; [|discriminate]].
      exists None. split; reflexivity.
    + reflexivity.
    + right. reflexivity.
Defined.

(** X4.  The profile fetch of [lambda_oauth.py] fails the same two ways: an
    exception no clause catches is raised by the callback; every other
    failure, and a 200 answer whose body is [null], gives the error page
    with code USER_ERROR.  Nothing is stored. *)
Theorem lambda_fetch_failure :
  forall (rt : Runtime) (env : Env)
         (query_params : list (string * list string)) (g : globals)
         (token_data access_token : pyval),
    lambda_exchanges rt env query_params token_data ->
    get token_data "access_token" PNone = Ret access_token ->
    truthy access_token = true ->
    (forall e : exn,
        uncaught_of (get_users_me env ("Bearer " ++ str rt access_token))
        = Some e ->
        Lambda.handle_callback rt env query_params g
        = (Raise (OtherError (message e)), g))
    /\ (uncaught_of (get_users_me env ("Bearer " ++ str rt access_token))
        = None ->
        payload_of (get_users_me env ("Bearer " ++ str rt access_token)) = None
        \/ payload_of (get_users_me env ("Bearer " ++ str rt access_token))
           = Some PNone ->
        shows_error (Lambda.handle_callback rt env query_params g)
          "USER_ERROR"
        /\ snd (Lambda.handle_callback rt env query_params g) = g).
Proof.
  intros rt env qp g token_data access_token
         [code error e1 Hcode Herror Hfalsy Hne Hex He1 Hpay] Htok Htru.
  pose proof (lambda_get_user_info_cases rt env access_token) as Hfetch.
  split.
  - intros e He. rewrite He in Hfetch.
    unfold Lambda.handle_callback, and_then, lift.
    rewrite Hcode, Herror, Hfalsy, (truthy_str_some code Hne).
    cbn [negb unwrap]. rewrite Hex, He1, (is_none_false _ Hpay). cbn [orb].
    rewrite Htok, Htru. cbn [negb]. rewrite Hfetch. reflexivity.
  - intros Hnone Hfail. rewrite Hnone in Hfetch.
    unfold Lambda.handle_callback, and_then, lift, ret.
    rewrite Hcode, Herror, Hfalsy, (truthy_str_some code Hne).
    cbn [negb unwrap]. rewrite Hex, He1, (is_none_false _ Hpay). cbn [orb].
    rewrite Htok, Htru. cbn [negb].
    destruct Hfail as [Hfail|Hfail]; rewrite Hfail in Hfetch.
    + destruct Hfetch as [text [Hfetch Htext]]. rewrite Hfetch, Htext.
      split; [|reflexivity]. eexists. split; reflexivity.
    + rewrite Hfetch. split; [|reflexivity]. eexists. split; reflexivity.
Qed.

Lemma lambda_fetch_failure_witness :
  shows_error
    (Lambda.handle_callback (ascii_runtime (fun _ => 65535)) unauthorized
       [("code", ["abc"])] connected)
    "USER_ERROR".
Proof.
  refine (proj1 (proj2 (lambda_fetch_failure (ascii_runtime (fun _ => 65535))
                          unauthorized [("code", ["abc"])] connected
                          bearer_token (PStr "tok") _ _ _) _ _)).
  - apply (LambdaExchanges _ _ _ _ "abc" None None);
      [ reflexivity | reflexivity | reflexivity | discriminate | reflexivity
      | reflexivity | discriminate ].
  - reflexivity.
  - reflexivity.
  - reflexivity.
  - left. reflexivity.
Defined.

(** ** What a callback can end in *)

(** The first two ways a callback ends. *)
Ltac error_page := left; eexists; eexists; reflexivity.
Ltac raises := right; left; eexists; reflexivity.

(** The callback of [service.py] ends in one of three ways: an error page
    with the globals untouched, an exception with the globals untouched, or
    the success page after one call of [save_user_to_pool]. *)
Lemma service_callback_outcome (rt : Runtime) (env : Env)
  (req : Service.request) (g : globals) :
  (exists error_code error_message : string,
      Service.handle_callback rt env req g
      = (Ret (Service.render_error rt env error_code error_message), g))
  \/ (exists e : pyexc, Service.handle_callback rt env req g = (Raise e, g))
  \/ (exists (user_id : Z) (username discriminator avatar : pyval)
             (shown : string),
         Service.handle_callback rt env req g
         = (Ret (Service.html_page (SuccessPage user_id shown)),
            snd (Service.save_user_to_pool env user_id username discriminator
                   avatar g))).
Proof.
  unfold Service.handle_callback.
  destruct (truthy_str (lookup "error" (Service.query req)));
    [error_page|].
  destruct (negb (truthy_str (lookup "code" (Service.query req))));
    [error_page|].
  destruct (Service.exchange_code rt env _) as [token_data e1].
  destruct (truthy_str e1); [error_page|].
  unfold and_then, lift, ret.
  destruct (get token_data "access_token" PNone) as [access_token|];
    [|raises].
  destruct (negb (truthy access_token)); [error_page|].
  destruct (Service.get_user_info rt env access_token) as [user_data e2].
  destruct (truthy_str e2); [error_page|].
  destruct (bind (getitem user_data "id") (int rt)) as [user_id|];
    [|raises].
  destruct (getitem user_data "username") as [username|];
    [|raises].
  destruct (get user_data "discriminator" (PStr "0")) as [ds|];
    [|raises].
  destruct (get user_data "avatar" PNone) as [av|]; [|raises].
  right. right. exists user_id, username, ds, av.
  destruct (service_save_returns env user_id username ds av g) as [b Hb].
  destruct (Service.save_user_to_pool env user_id username ds av g)
    as [[?|?] g']; [|discriminate Hb].
  eexists. reflexivity.
Qed.

Lemma lambda_callback_outcome (rt : Runtime) (env : Env)
  (query_params : list (string * list string)) (g : globals) :
  (exists error_code error_message : string,
      Lambda.handle_callback rt env query_params g
      = (Ret (Lambda.html_response
                (Lambda.render_error rt env error_code error_message) 200), g))
  \/ (exists e : pyexc,
         Lambda.handle_callback rt env query_params g = (Raise e, g))
  \/ (exists (user_id : Z) (username discriminator avatar : pyval)
             (shown : string),
         Lambda.handle_callback rt env query_params g
         = (Ret (Lambda.html_response (SuccessPage user_id shown) 200),
            snd (Lambda.save_user_to_pool env user_id username discriminator
                   avatar g))).
Proof.
  unfold Lambda.handle_callback, and_then, lift, ret.
  destruct (Lambda.first_of "code" query_params None) as [code|];
    [|raises].
  destruct (Lambda.first_of "error" query_params None) as [error|];
    [|raises].
  destruct (truthy_str error).
  { destruct (Lambda.first_of "error_description" query_params _);
      [error_page|raises]. }
  destruct (negb (truthy_str code)); [error_page|].
  destruct (Lambda.exchange_code rt env (unwrap code)) as [[token_data e1]|];
    [|raises].
  destruct (truthy_str e1 || match token_data with PNone => true | _ => false end);
    [error_page|].
  destruct (get token_data "access_token" PNone) as [access_token|];
    [|raises].
  destruct (negb (truthy access_token)); [error_page|].
  destruct (Lambda.get_user_info rt env access_token) as [[user_data e2]|];
    [|raises].
  destruct (truthy_str e2 || match user_data with PNone => true | _ => false end);
    [error_page|].
  destruct (bind (getitem user_data "id") (int rt)) as [user_id|];
    [|raises].
  destruct (getitem user_data "username") as [username|];
    [|raises].
  destruct (get user_data "discriminator" (PStr "0")) as [ds|];
    [|raises].
  destruct (get user_data "avatar" PNone) as [av|]; [|raises].
  right. right. exists user_id, username, ds, av.
  destruct (lambda_save_returns env user_id username ds av g) as [b Hb].
  destruct (Lambda.save_user_to_pool env user_id username ds av g)
    as [[?|?] g']; [|discriminate Hb].
  eexists. reflexivity.
Qed.

(** X5.  Whatever the callback returns is an HTML page with status 200: every
    failure the handlers classify is shown in band, never as a 4xx or 5xx
    answer.  In both deployments. *)
Theorem callback_pages_have_status_200 :
  forall (rt : Runtime) (env : Env) (g : globals) (r : response),
    (forall req : Service.request,
        fst (Service.handle_callback rt env req g) = Ret r ->
        statusCode r = 200 /\ exists p : page, content r = Html p)
    /\ (forall query_params : list (string * list string),
           fst (Lambda.handle_callback rt env query_params g) = Ret r ->
           statusCode r = 200 /\ exists p : page, content r = Html p).
Proof.
  intros rt env g r. split.
  - intros req Hr.
    destruct (service_callback_outcome rt env req g)
      as [[c [m H]]|[[e H]|[uid [u [ds [av [shown H]]]]]]];
      rewrite H in Hr; cbn [fst] in Hr; try discriminate Hr;
      injection Hr as <-; (split; [reflexivity|eexists; reflexivity]).
  - intros qp Hr.
    destruct (lambda_callback_outcome rt env qp g)
      as [[c [m H]]|[[e H]|[uid [u [ds [av [shown H]]]]]]];
      rewrite H in Hr; cbn [fst] in Hr; try discriminate Hr;
      injection Hr as <-; (split; [reflexivity|eexists; reflexivity]).
Qed.

(** X6.  The callback writes only on its way to the success page: when it
    returns an error page or raises, the globals (handle, client and
    collection) are exactly what they were.  In both deployments. *)
Theorem callback_writes_only_on_success :
  forall (rt : Runtime) (env : Env) (g : globals),
    (forall req : Service.request,
        (forall (user_id : Z) (shown : string),
            ~ shows_success (Service.handle_callback rt env req g) user_id
                shown) ->
        snd (Service.handle_callback rt env req g) = g)
    /\ (forall query_params : list (string * list string),
           (forall (user_id : Z) (shown : string),
               ~ shows_success (Lambda.handle_callback rt env query_params g)
                   user_id shown) ->
           snd (Lambda.handle_callback rt env query_params g) = g).
Proof.
  intros rt env g. split.
  - intros req Hno.
    destruct (service_callback_outcome rt env req g)
      as [[c [m H]]|[[e H]|[uid [u [ds [av [shown H]]]]]]];
      try (rewrite H; reflexivity).
    exfalso. apply (Hno uid shown). rewrite H. eexists. split; reflexivity.
  - intros qp Hno.
    destruct (lambda_callback_outcome rt env qp g)
      as [[c [m H]]|[[e H]|[uid [u [ds [av [shown H]]]]]]];
      try (rewrite H; reflexivity).
    exfalso. apply (Hno uid shown). rewrite H. eexists. split; reflexivity.
Qed.

Lemma callback_pages_have_status_200_witness :
  statusCode
    (Service.render_error (ascii_runtime (fun _ => 65535))
       (provider bearer_token PNone) "ACCESS_DENIED"
       "Authorization was denied.")
  = 200.
Proof.
  refine (proj1 (proj1 (callback_pages_have_status_200
                          (ascii_runtime (fun _ => 65535))
                          (provider bearer_token PNone) connected
                          (Service.render_error
                             (ascii_runtime (fun _ => 65535))
                             (provider bearer_token PNone) "ACCESS_DENIED"
                             "Authorization was denied."))
                   (service_request [("error", "access_denied")]) _)).
  reflexivity.
Defined.

Lemma callback_writes_only_on_success_witness :
  snd (Service.handle_callback (ascii_runtime (fun _ => 65535))
         (provider (PDict []) PNone) (service_request [("code", "abc")])
         known_user)
  = known_user.
Proof.
  refine (proj1 (callback_writes_only_on_success
                   (ascii_runtime (fun _ => 65535)) (provider (PDict []) PNone)
                   known_user)
            (service_request [("code", "abc")]) _).
  intros user_id shown [r [Hr Hs]].
  vm_compute in Hr. injection Hr as <-. discriminate Hs.
Defined.

(** ** Routing in [lambda_oauth.py] *)

Lemma requested_path_eq (ev : Lambda.event) :
  (if truthy_str (Lambda.path ev) then unwrap (Lambda.path ev)
   else match Lambda.rawPath ev with Some p => p | None => "/" end)
  = requested_path ev.
Proof.
  unfold requested_path. destruct (Lambda.path ev) as [[|c p]|]; reflexivity.
Qed.

Lemma lambda_handler_route (rt : Runtime) (env : Env) (ev : Lambda.event)
  (g : globals) :
  exists query_params : list (string * list string),
    Lambda.lambda_handler rt env ev g
    = (if String.eqb (requested_path ev) "/callback"
       then Lambda.handle_callback rt env query_params
       else if String.eqb (requested_path ev) "/error"
       then Lambda.handle_error rt env query_params
       else if String.eqb (requested_path ev) "/health"
       then ret (Lambda.json_response 200
                   [ ("status", PStr "ok");
                     ("timestamp", PInt (time_time env));
                     ("service", PStr "oauth-lambda") ])
       else if String.eqb (requested_path ev) "/oauth-url"
       then ret (Lambda.json_response 200
                   [("oauth_url", PStr Lambda.get_oauth_url)])
       else ret (Lambda.json_response 404
                   [ ("error", PStr "Not found");
                     ("available_routes",
                      PList [PStr "/callback"; PStr "/error"; PStr "/health";
                             PStr "/oauth-url"]) ])) g.
Proof.
  unfold Lambda.lambda_handler. rewrite requested_path_eq.
  eexists. reflexivity.
Qed.

Lemma lambda_error_outcome (rt : Runtime) (env : Env)
  (query_params : list (string * list string)) (g : globals) :
  (exists r : response,
      Lambda.handle_error rt env query_params g = (Ret r, g)
      /\ statusCode r = 200)
  \/ (exists e : pyexc, Lambda.handle_error rt env query_params g = (Raise e, g)).
Proof.
  unfold Lambda.handle_error, and_then, lift, ret.
  destruct (Lambda.first_of "code" query_params _); [|right; eauto].
  destruct (Lambda.first_of "message" query_params _); [|right; eauto].
  left. eexists. split; reflexivity.
Qed.

(** X7.  [lambda_handler] answers 404 exactly for the paths outside its four
    routes and 200 for everything else it returns; and only the callback
    route can touch the globals. *)
Theorem lambda_handler_statuses :
  forall (rt : Runtime) (env : Env) (ev : Lambda.event) (g : globals),
    (forall r : response,
        fst (Lambda.lambda_handler rt env ev g) = Ret r ->
        (In (requested_path ev) lambda_routes -> statusCode r = 200)
        /\ (~ In (requested_path ev) lambda_routes -> statusCode r = 404))
    /\ (~ In (requested_path ev) lambda_routes ->
        exists r : response, fst (Lambda.lambda_handler rt env ev g) = Ret r)
    /\ (requested_path ev <> "/callback" ->
        snd (Lambda.lambda_handler rt env ev g) = g).
Proof.
  intros rt env ev g.
  destruct (lambda_handler_route rt env ev g) as [qp ->].
  unfold lambda_routes.
  destruct (String.eqb_spec (requested_path ev) "/callback") as [Hc|Hc].
  { split; [|split].
    - intros r Hr. split; [intros _|intros Hn; exfalso; apply Hn; simpl; auto].
      apply (proj2 (callback_pages_have_status_200 rt env g r) qp Hr).
    - intros Hn. exfalso. apply Hn. simpl. auto.
    - intros Hn. contradiction. }
  destruct (String.eqb_spec (requested_path ev) "/error") as [He|He].
  { split; [|split].
    - intros r Hr. split; [intros _|intros Hn; exfalso; apply Hn; simpl; auto].
      destruct (lambda_error_outcome rt env qp g) as [[r' [H Hs]]|[e H]];
        rewrite H in Hr; cbn [fst] in Hr; [|discriminate Hr].
      injection Hr as <-. exact Hs.
    - intros Hn. exfalso. apply Hn. simpl. auto.
    - intros _.
      destruct (lambda_error_outcome rt env qp g) as [[r' [H Hs]]|[e H]];
        rewrite H; reflexivity. }
  destruct (String.eqb_spec (requested_path ev) "/health") as [Hh|Hh].
  { split; [|split].
    - intros r Hr. injection Hr as <-.
      split; [reflexivity|intros Hn; exfalso; apply Hn; simpl; auto].
    - intros Hn. exfalso. apply Hn. simpl. auto.
    - reflexivity. }
  destruct (String.eqb_spec (requested_path ev) "/oauth-url") as [Ho|Ho].
  { split; [|split].
    - intros r Hr. injection Hr as <-.
      split; [reflexivity|intros Hn; exfalso; apply Hn; simpl; auto].
    - intros Hn. exfalso. apply Hn. simpl. auto.
    - reflexivity. }
  split; [|split].
  - intros r Hr. injection Hr as <-. split; [|reflexivity].
    simpl. intros [H|[H|[H|[H|[]]]]]; congruence.
  - intros _. eexists. reflexivity.
  - reflexivity.
Qed.

Lemma lambda_handler_statuses_witness :
  exists r : response,
    fst (Lambda.lambda_handler (ascii_runtime (fun _ => 65535))
           (provider bearer_token PNone) (rest_event "/favicon.ico" [])
           disconnected)
    = Ret r.
Proof.
  refine (proj1 (proj2 (lambda_handler_statuses
                          (ascii_runtime (fun _ => 65535))
                          (provider bearer_token PNone)
                          (rest_event "/favicon.ico" []) disconnected)) _).
  simpl. intros [H|[H|[H|[H|[]]]]]; discriminate H.
Defined.





(** ** The connection of [lambda_oauth.py] *)

(** X9.  [get_db] connects at most once: when the client is set it returns
    the handle without building a client (so a fault of the constructor no
    longer matters); after a call that returned, the client is set and every
    later call returns the same handle and changes nothing; a call that
    raised left the globals as they were, so that the next call tries
    again. *)
Theorem get_db_connects_once :
  forall (env : Env) (g : globals),
    (mongo_client g = true -> Lambda.get_db env g = (Ret (db g), g))
    /\ (forall (handle : bool) (g' : globals),
           Lambda.get_db env g = (Ret handle, g') ->
           mongo_client g' = true
           /\ oauth_users g' = oauth_users g
           /\ forall env' : Env, Lambda.get_db env' g' = (Ret handle, g'))
    /\ (forall (e : pyexc) (g' : globals),
           Lambda.get_db env g = (Raise e, g') ->
           g' = g /\ mongo_client g = false /\ client_raises env = true).
Proof.
  intros env g. split; [|split].
  - intros Hclient. unfold Lambda.get_db. rewrite Hclient. reflexivity.
  - intros handle g' H. unfold Lambda.get_db in H.
    destruct (mongo_client g) eqn:Hclient; cbn [negb] in H.
    + injection H as <- <-. split; [exact Hclient|]. split; [reflexivity|].
      intros env'. unfold Lambda.get_db. rewrite Hclient. reflexivity.
    + destruct (client_raises env); [discriminate H|].
      injection H as <- <-. split; [reflexivity|]. split; [reflexivity|].
      intros env'. reflexivity.
  - intros e g' H. unfold Lambda.get_db in H.
    destruct (mongo_client g); cbn [negb] in H; [discriminate H|].
    destruct (client_raises env); [|discriminate H].
    injection H as _ <-. repeat split.
Qed.

Lemma get_db_connects_once_witness :
  Lambda.get_db (with_store_faults (provider bearer_token PNone) true false)
    connected
  = (Ret true, connected).
Proof.
  refine (proj1 (get_db_connects_once
                   (with_store_faults (provider bearer_token PNone) true false)
                   connected) _).
  reflexivity.
Defined.

(** ** Upserts after one another *)

Lemma set_field_twice (key : string) (v w : pyval) (d : Mongo.document) :
  Mongo.set_field key w (Mongo.set_field key v d) = Mongo.set_field key w d.
Proof.
  induction d as [|[k x] rest IH]; cbn [Mongo.set_field].
  - rewrite String.eqb_refl. reflexivity.
  - destruct (String.eqb k key) eqn:Hk; cbn [Mongo.set_field]; rewrite Hk.
    + reflexivity.
    + rewrite IH. reflexivity.
Qed.

(** Setting a field that is there commutes with setting another field. *)
Lemma set_field_swap (k1 k2 : string) (v w : pyval) (d : Mongo.document) :
  k1 <> k2 ->
  lookup k1 d <> None ->
  Mongo.set_field k1 v (Mongo.set_field k2 w d)
  = Mongo.set_field k2 w (Mongo.set_field k1 v d).
Proof.
  intros Hne. induction d as [|[k x] rest IH]; cbn [lookup Mongo.set_field].
  - intros H. contradiction.
  - intros Hin.
    destruct (String.eqb k k2) eqn:E2; destruct (String.eqb k k1) eqn:E1;
      cbn [Mongo.set_field]; rewrite ?E1, ?E2;
      cbn [Mongo.set_field]; rewrite ?E1, ?E2; try reflexivity.
    + apply String.eqb_eq in E1, E2. congruence.
    + rewrite IH; [reflexivity|exact Hin].
Qed.

Lemma lookup_set_field_same (key : string) (v : pyval) (d : Mongo.document) :
  lookup key (Mongo.set_field key v d) <> None.
Proof. rewrite lookup_set_field, String.eqb_refl. discriminate. Qed.

Lemma apply_set_swap (key : string) (v : pyval) (fields d : Mongo.document) :
  ~ In key (map fst fields) ->
  lookup key d <> None ->
  Mongo.set_field key v (Mongo.apply_set fields d)
  = Mongo.apply_set fields (Mongo.set_field key v d).
Proof.
  unfold Mongo.apply_set. revert d.
  induction fields as [|[k w] rest IH]; intros d Hnot Hin; cbn [fold_left fst snd].
  - reflexivity.
  - cbn [map fst In] in Hnot.
    rewrite IH.
    + rewrite set_field_swap; [reflexivity| |exact Hin].
      intros ->. apply Hnot. left. reflexivity.
    + intros H. apply Hnot. right. exact H.
    + rewrite lookup_set_field. destruct (String.eqb k key); [discriminate|exact Hin].
Qed.

Lemma apply_set_cons (key : string) (v : pyval) (fields d : Mongo.document) :
  Mongo.apply_set ((key, v) :: fields) d
  = Mongo.apply_set fields (Mongo.set_field key v d).
Proof. reflexivity. Qed.

(** [$set] with the same field names twice: the second alone decides. *)
Lemma apply_set_twice (fields1 fields2 d : Mongo.document) :
  map fst fields1 = map fst fields2 ->
  NoDup (map fst fields1) ->
  Mongo.apply_set fields2 (Mongo.apply_set fields1 d)
  = Mongo.apply_set fields2 d.
Proof.
  revert fields2 d.
  induction fields1 as [|[k v] rest1 IH]; intros [|[k2 w] rest2] d Hkeys Hnd;
    try discriminate Hkeys.
  - reflexivity.
  - cbn [map fst] in Hkeys. injection Hkeys as <- Hrest.
    cbn [map fst] in Hnd. inversion Hnd as [|? ? Hnotin Hnd']; subst.
    rewrite !apply_set_cons.
    rewrite (apply_set_swap k w rest1 (Mongo.set_field k v d) Hnotin
               (lookup_set_field_same k v d)).
    rewrite set_field_twice.
    apply IH; assumption.
Qed.

Lemma update_one_twice (user_id : Z) (u1 ds1 av1 u2 ds2 av2 : pyval) (t1 t2 : Z)
  (c : Mongo.collection) :
  Mongo.update_one user_id (user_record user_id u2 ds2 av2 t2)
    (Mongo.update_one user_id (user_record user_id u1 ds1 av1 t1) c)
  = Mongo.update_one user_id (user_record user_id u2 ds2 av2 t2) c.
Proof.
  assert (Htwice :
            forall d : Mongo.document,
              Mongo.apply_set (user_record user_id u2 ds2 av2 t2)
                (Mongo.apply_set (user_record user_id u1 ds1 av1 t1) d)
              = Mongo.apply_set (user_record user_id u2 ds2 av2 t2) d).
  { intros d. apply apply_set_twice; [reflexivity|].
    cbn [user_record map fst].
    repeat (constructor;
            [cbn [In]; intros H;
             repeat (destruct H as [H|H]; [discriminate H|]); exact H|]).
    constructor. }
  induction c as [|d rest IH]; cbn [Mongo.update_one].
  - rewrite has_id_apply_set, Z.eqb_refl, Htwice. reflexivity.
  - destruct (Mongo.has_id user_id d) eqn:Hd; cbn [Mongo.update_one].
    + rewrite has_id_apply_set, Z.eqb_refl, Htwice. reflexivity.
    + rewrite Hd, IH. reflexivity.
Qed.

(** X10.  The last write wins.  When a user is saved twice, and the second
    save would be stored if it ran alone on the globals the two start from,
    then the collection after both is exactly what the second save alone
    leaves, whether the first one was stored or failed; so saving the same
    data twice is the same as saving it once.  In both deployments. *)
Theorem last_save_wins :
  forall (env1 env2 : Env) (user_id : Z) (u1 ds1 av1 u2 ds2 av2 : pyval)
         (g : globals),
    (fst (Service.save_user_to_pool env2 user_id u2 ds2 av2 g) = Ret true ->
     oauth_users
       (snd (Service.save_user_to_pool env2 user_id u2 ds2 av2
               (snd (Service.save_user_to_pool env1 user_id u1 ds1 av1 g))))
     = oauth_users (snd (Service.save_user_to_pool env2 user_id u2 ds2 av2 g)))
    /\ (fst (Lambda.save_user_to_pool env2 user_id u2 ds2 av2 g) = Ret true ->
        oauth_users
          (snd (Lambda.save_user_to_pool env2 user_id u2 ds2 av2
                  (snd (Lambda.save_user_to_pool env1 user_id u1 ds1 av1 g))))
        = oauth_users
            (snd (Lambda.save_user_to_pool env2 user_id u2 ds2 av2 g))).
Proof.
  intros env1 env2 user_id u1 ds1 av1 u2 ds2 av2 g. split.
  - unfold Service.save_user_to_pool.
    destruct (db g) eqn:Hdb; cbn [negb fst]; [|discriminate].
    destruct (store_raises env2) eqn:Hstore; [discriminate|]. intros _.
    destruct (store_raises env1); cbn [snd db oauth_users];
      rewrite ?Hdb, ?Hstore; cbn [negb snd oauth_users]; [reflexivity|].
    apply update_one_twice.
  - unfold Lambda.save_user_to_pool, Lambda.get_db.
    destruct (mongo_client g) eqn:Hclient; cbn [negb].
    + destruct (db g) eqn:Hdb; cbn [negb fst]; [|discriminate].
      destruct (store_raises env2) eqn:Hstore; [discriminate|]. intros _.
      destruct (store_raises env1); cbn [snd db mongo_client oauth_users];
        rewrite ?Hclient, ?Hdb, ?Hstore; cbn [negb snd oauth_users];
        [reflexivity|].
      apply update_one_twice.
    + destruct (client_raises env2) eqn:Hc2; cbn [negb fst]; [discriminate|].
      destruct (store_raises env2) eqn:Hstore; [discriminate|]. intros _.
      destruct (client_raises env1); cbn [negb snd mongo_client];
        rewrite ?Hclient, ?Hc2, ?Hstore; cbn [negb snd oauth_users];
        [reflexivity|].
      destruct (store_raises env1); cbn [snd db mongo_client oauth_users];
        rewrite ?Hstore; cbn [negb snd oauth_users]; [reflexivity|].
      apply update_one_twice.
Qed.

Lemma last_save_wins_witness :
  oauth_users
    (snd (Lambda.save_user_to_pool (provider bearer_token PNone) 123
            (PStr "alice") (PStr "0") PNone
            (snd (Lambda.save_user_to_pool (provider bearer_token PNone) 123
                    (PStr "al") (PStr "7") PNone disconnected))))
  = oauth_users
      (snd (Lambda.save_user_to_pool (provider bearer_token PNone) 123
              (PStr "alice") (PStr "0") PNone disconnected)).
Proof.
  refine (proj2 (last_save_wins (provider bearer_token PNone)
                   (provider bearer_token PNone) 123
                   (PStr "al") (PStr "7") PNone
                   (PStr "alice") (PStr "0") PNone disconnected) _).
  reflexivity.
Defined.

Lemma find_update_one_commute (a b : Z) (ua dsa ava ub dsb avb : pyval)
  (ta tb : Z) (c : Mongo.collection) (user_id : Z) :
  a <> b ->
  Mongo.find user_id
    (Mongo.update_one a (user_record a ua dsa ava ta)
       (Mongo.update_one b (user_record b ub dsb avb tb) c))
  = Mongo.find user_id
      (Mongo.update_one b (user_record b ub dsb avb tb)
         (Mongo.update_one a (user_record a ua dsa ava ta) c)).
Proof.
  intros Hab.
  destruct (Z.eq_dec user_id a) as [->|Ha].
  - rewrite find_update_one_same.
    rewrite (find_update_one_other b a) by exact Hab.
    rewrite (find_update_one_other b a) by exact Hab.
    rewrite find_update_one_same. reflexivity.
  - rewrite (find_update_one_other a user_id) by exact Ha.
    destruct (Z.eq_dec user_id b) as [->|Hb].
    + rewrite !find_update_one_same.
      rewrite (find_update_one_other a b) by exact Ha. reflexivity.
    + rewrite !(find_update_one_other b user_id) by exact Hb.
      rewrite (find_update_one_other a user_id) by exact Ha. reflexivity.
Qed.

(** X11.  Saves of different users do not disturb each other: in whichever
    order two of them run, each id finds the same documents afterwards. *)
Theorem saves_of_different_users_commute :
  forall (c1 c2 : upsert_call) (g : globals) (user_id : Z),
    call_user_id c1 <> call_user_id c2 ->
    Mongo.find user_id (oauth_users (service_upserts [c1; c2] g))
    = Mongo.find user_id (oauth_users (service_upserts [c2; c1] g)).
Proof.
  intros c1 c2 g user_id Hne.
  unfold service_upserts. cbn [fold_left].
  unfold Service.save_user_to_pool.
  destruct (db g) eqn:Hdb; cbn [negb snd]; [|rewrite Hdb; reflexivity].
  destruct (store_raises (call_env c1)); destruct (store_raises (call_env c2));
    cbn [snd db oauth_users]; rewrite ?Hdb; cbn [negb snd oauth_users];
    try reflexivity.
  symmetry. apply find_update_one_commute. exact Hne.
Qed.

Lemma saves_of_different_users_commute_witness :
  Mongo.find 123
    (oauth_users
       (service_upserts
          [ {| call_env := provider bearer_token PNone; call_user_id := 123;
               call_username := PStr "alice"; call_discriminator := PStr "0";
               call_avatar := PNone |};
            {| call_env := provider bearer_token PNone; call_user_id := 456;
               call_username := PStr "bob"; call_discriminator := PStr "0";
               call_avatar := PNone |} ] known_user))
  = Mongo.find 123
      (oauth_users
         (service_upserts
            [ {| call_env := provider bearer_token PNone; call_user_id := 456;
                 call_username := PStr "bob"; call_discriminator := PStr "0";
                 call_avatar := PNone |};
              {| call_env := provider bearer_token PNone; call_user_id := 123;
                 call_username := PStr "alice"; call_discriminator := PStr "0";
                 call_avatar := PNone |} ] known_user)).
Proof.
  refine (saves_of_different_users_commute _ _ known_user 123 _).
  discriminate.
Defined.

(** ** The two deployments side by side *)




